(** * Financial Data Warehouse API: the dataset generator and the Snowflake gateway

    A shallow embedding of [backend/server.py]:
    - [generate_sample_data], the routine that fabricates customers,
      merchants, accounts and transactions;
    - [SnowflakeManager] ([connect], [execute_query], [load_dataframe]) and
      the endpoints [snowflake_status], [execute_query] and [generate_data].

    Conventions.
    - Python exceptions are values of [exn]; a computation returns
      [Ok v] or [Raise e].
    - The generator draws from three sources of randomness ([random],
      [Faker], [uuid.uuid4]).  They are modelled by one entropy tape
      [nat -> N] read at a cursor; every draw reads the next cell.  Since the
      tape is arbitrary, every sequence of outcomes of the draws is covered.
    - [datetime.date] values are proleptic ordinals and [datetime.datetime]
      values are timestamps, both in [Z].
    - Python [str] values are [string]s holding their UTF-8 encoding.
      [str.strip] and [str.upper] depend on the Unicode tables of the
      interpreter: the execute endpoint takes them as parameters
      ([StrMethods]), and [strip] and [upper] give them on ASCII text. *)

From Stdlib Require Import ZArith NArith List String Ascii Bool Lia.
From Stdlib Require Import DecimalString.
Import ListNotations.

Local Open Scope string_scope.
Local Open Scope list_scope.

(** ** Exceptions and results *)

Inductive exn : Type :=
| IndexError (msg : string)
| ValueError (msg : string)
| ValidationError (msg : string)
| AttributeError (msg : string)
| DriverError (msg : string)
| HTTPException (status_code : Z) (detail : string).

Inductive result (A : Type) : Type :=
| Ok (a : A)
| Raise (e : exn).

Arguments Ok {A} a.
Arguments Raise {A} e.

(** ** The records of the generated dataset

    The source builds each record as a dict with a fixed set of keys; the
    keys become the fields of a record. *)

Module Customer.
Record t : Type := mk {
  customer_id : string;
  first_name : string;
  last_name : string;
  email : string;
  phone : string;
  address : string;
  city : string;
  state : string;
  zip_code : string;
  date_of_birth : Z;
  account_opening_date : Z;
  risk_score : Z
}.
End Customer.

Module Merchant.
Record t : Type := mk {
  merchant_id : string;
  merchant_name : string;
  merchant_category : string;
  address : string;
  city : string;
  state : string;
  zip_code : string;
  phone : string;
  email : string
}.
End Merchant.

Module Account.
(** [balance] is kept in cents: the source rounds it to two decimals. *)
Record t : Type := mk {
  account_id : string;
  customer_id : string;
  account_type : string;
  account_number : string;
  balance : Z;
  opening_date : Z;
  status : string
}.
End Account.

Module Transaction.
(** [amount] is kept in cents: the source rounds it to two decimals. *)
Record t : Type := mk {
  transaction_id : string;
  customer_id : string;
  merchant_id : string;
  account_id : string;
  amount : Z;
  transaction_type : string;
  category : string;
  description : string;
  transaction_date : Z;
  status : string
}.
End Transaction.

(** The dict returned by [generate_sample_data]. *)
Record Dataset : Type := mkDataset {
  customers : list Customer.t;
  merchants : list Merchant.t;
  accounts : list Account.t;
  transactions : list Transaction.t
}.

(** ** The Faker provider

    Each method of the [Faker] object used by the source turns one cell of
    the entropy tape into a value.  The arguments the source passes
    ([minimum_age], [start_date], [max_nb_chars], ...) are fixed at each call
    site and are part of the provider. *)

Module Faker.
Record t : Type := mk {
  first_name : N -> string;
  last_name : N -> string;
  email : N -> string;
  phone_number : N -> string;
  street_address : N -> string;
  city : N -> string;
  state_abbr : N -> string;
  zipcode : N -> string;
  date_of_birth : N -> Z;
  date_between : N -> Z;
  company : N -> string;
  company_email : N -> string;
  bban : N -> string;
  text : N -> string;
  date_time_between : N -> Z
}.
End Faker.

(** ** Rendering of a version-4 UUID: [str(uuid.uuid4())] *)

Definition hex_digit (n : N) : ascii :=
  match n with
  | 0%N => "0" | 1%N => "1" | 2%N => "2" | 3%N => "3"
  | 4%N => "4" | 5%N => "5" | 6%N => "6" | 7%N => "7"
  | 8%N => "8" | 9%N => "9" | 10%N => "a" | 11%N => "b"
  | 12%N => "c" | 13%N => "d" | 14%N => "e" | _ => "f"
  end%char.

(** The [k] hexadecimal digits of [n] from digit [k - 1] down to digit 0. *)
Fixpoint hex_digits (k : nat) (n : N) : string :=
  match k with
  | O => EmptyString
  | S k' =>
      String (hex_digit (N.land (N.shiftr n (4 * N.of_nat k')) 15))
             (hex_digits k' n)
  end.

(** The 128 random bits with the variant and the version fields forced. *)
Definition uuid4_int (bits : N) : N :=
  let i := N.land bits (N.ones 128) in
  let i := N.ldiff i (N.shiftl 49152 48) in
  let i := N.lor i (N.shiftl 32768 48) in
  let i := N.ldiff i (N.shiftl 61440 64) in
  N.lor i (N.shiftl 4 76).

Definition uuid_str (i : N) : string :=
  hex_digits 8 (N.shiftr i 96) ++ "-" ++
  hex_digits 4 (N.shiftr i 80) ++ "-" ++
  hex_digits 4 (N.shiftr i 64) ++ "-" ++
  hex_digits 4 (N.shiftr i 48) ++ "-" ++
  hex_digits 12 i.

(** ** State and exceptions

    A computation over a state [S] returns a value or raises, and leaves the
    state it reached either way. *)

Definition M (S A : Type) : Type := S -> result A * S.

Definition ret {S A} (a : A) : M S A := fun s => (Ok a, s).

Definition raise {S A} (e : exn) : M S A := fun s => (Raise e, s).

Definition bind {S A B} (m : M S A) (f : A -> M S B) : M S B :=
  fun s =>
    match m s with
    | (Ok a, s') => f a s'
    | (Raise e, s') => (Raise e, s')
    end.

(** [try: m  except Exception as e: handler(e)] *)
Definition try_except {S A} (m : M S A) (handler : exn -> M S A) : M S A :=
  fun s =>
    match m s with
    | (Ok a, s') => (Ok a, s')
    | (Raise e, s') => handler e s'
    end.

Notation "x <- m ;; k" := (bind m (fun x => k))
  (at level 61, m at next level, right associativity).

(** The generator monad: the state is the cursor on the entropy tape. *)
Definition Gen (A : Type) : Type := M nat A.

(** [for _ in range(n): acc.append(body())] *)
Fixpoint for_range {A} (n : nat) (body : Gen A) (acc : list A) : Gen (list A) :=
  match n with
  | O => ret acc
  | S k => x <- body ;; for_range k body (acc ++ [x])
  end.

(** [for x in l: acc = body(x, acc)] *)
Fixpoint for_each {A S} (l : list A) (body : A -> S -> Gen S) (acc : S) : Gen S :=
  match l with
  | [] => ret acc
  | x :: rest => acc' <- body x acc ;; for_each rest body acc'
  end.

(** [l[0]] *)
Definition first_item {A} (l : list A) : Gen A :=
  match l with
  | [] => raise (IndexError "list index out of range")
  | x :: _ => ret x
  end.

Section Generator.

Variable entropy : nat -> N.
Variable fake : Faker.t.

(** One cell of the tape. *)
Definition draw : Gen N := fun i => (Ok (entropy i), S i).

(** [random.randint(a, b)]; the source calls it with constant bounds
    [a <= b], so the [ValueError] branch is never taken there. *)
Definition randint (a b : Z) : Gen Z :=
  if (b <? a)%Z then raise (ValueError "empty range for randrange()")
  else r <- draw ;; ret (a + Z.of_N r mod (b - a + 1))%Z.

(** [random.choice(seq)] *)
Definition choice {A} (seq : list A) : Gen A :=
  match seq with
  | [] => raise (IndexError "Cannot choose from an empty sequence")
  | d :: _ =>
      r <- draw ;;
      ret (nth (N.to_nat r mod List.length seq) seq d)
  end.

(** [round(random.uniform(a, b), 2)], in cents. *)
Definition uniform_round2 (a b : Z) : Gen Z :=
  r <- draw ;; ret (100 * a + Z.of_N r mod (100 * (b - a) + 1))%Z.

(** [random.random()]: the numerator [k] of the float [k / 2^53]. *)
Definition random_random : Gen N :=
  r <- draw ;; ret (r mod 2 ^ 53)%N.

(** [x < 0.1] for [x = k / 2^53]; the double nearest to 0.1 is
    [3602879701896397 / 2^55]. *)
Definition lt_tenth (k : N) : bool := (4 * k <? 3602879701896397)%N.

(** [str(uuid.uuid4())] *)
Definition uuid4 : Gen string :=
  r <- draw ;; ret (uuid_str (uuid4_int r)).

(** A call [fake.method()]. *)
Definition faker {A} (method : Faker.t -> N -> A) : Gen A :=
  r <- draw ;; ret (method fake r).

Definition merchant_categories : list string :=
  ["Restaurant"; "Grocery"; "Gas Station"; "Retail"; "Online"; "Pharmacy";
   "Entertainment"].

Definition account_types : list string := ["checking"; "savings"; "credit"].

Definition transaction_types : list string :=
  ["purchase"; "withdrawal"; "deposit"; "transfer"; "payment"].

Definition categories : list string :=
  ["Food & Dining"; "Shopping"; "Transportation"; "Bills"; "Entertainment";
   "Healthcare"; "Travel"].

(** The body of the customers loop. *)
Definition make_customer : Gen Customer.t :=
  cid <- uuid4 ;;
  fn <- faker Faker.first_name ;;
  ln <- faker Faker.last_name ;;
  em <- faker Faker.email ;;
  ph <- faker Faker.phone_number ;;
  ad <- faker Faker.street_address ;;
  ci <- faker Faker.city ;;
  st <- faker Faker.state_abbr ;;
  zc <- faker Faker.zipcode ;;
  dob <- faker Faker.date_of_birth ;;
  aod <- faker Faker.date_between ;;
  rs <- randint 10 90 ;;
  ret (Customer.mk cid fn ln em ph ad ci st zc dob aod rs).

(** The body of the merchants loop. *)
Definition make_merchant : Gen Merchant.t :=
  mid <- uuid4 ;;
  nm <- faker Faker.company ;;
  cat <- choice merchant_categories ;;
  ad <- faker Faker.street_address ;;
  ci <- faker Faker.city ;;
  st <- faker Faker.state_abbr ;;
  zc <- faker Faker.zipcode ;;
  ph <- faker Faker.phone_number ;;
  em <- faker Faker.company_email ;;
  ret (Merchant.mk mid nm cat ad ci st zc ph em).

(** The body of the inner accounts loop, for one [customer]. *)
Definition make_account (customer : Customer.t) : Gen Account.t :=
  aid <- uuid4 ;;
  ty <- choice account_types ;;
  num <- faker Faker.bban ;;
  bal <- uniform_round2 100 50000 ;;
  ret (Account.mk aid (Customer.customer_id customer) ty num bal
                  (Customer.account_opening_date customer) "active").

(** The body of the outer accounts loop: one to three accounts appended
    for [customer]. *)
Definition customer_accounts_step (customer : Customer.t)
    (accounts : list Account.t) : Gen (list Account.t) :=
  num_accounts <- randint 1 3 ;;
  for_range (Z.to_nat num_accounts) (make_account customer) accounts.

(** [[acc for acc in accounts if acc['customer_id'] == customer['customer_id']]] *)
Definition accounts_of (customer : Customer.t) (accounts : list Account.t)
    : list Account.t :=
  filter (fun acc =>
            String.eqb (Account.customer_id acc) (Customer.customer_id customer))
         accounts.

(** [random.choice(customer_accounts) if customer_accounts else accounts[0]] *)
Definition pick_account (customer : Customer.t) (accounts : list Account.t)
    : Gen Account.t :=
  let customer_accounts := accounts_of customer accounts in
  match customer_accounts with
  | _ :: _ => choice customer_accounts
  | [] => first_item accounts
  end.

(** [random.choice([...]) if random.random() < 0.1 else 'completed'] *)
Definition pick_status : Gen string :=
  k <- random_random ;;
  if lt_tenth k then choice ["completed"; "pending"; "failed"]
  else ret "completed".

(** The body of the transactions loop. *)
Definition make_transaction (customers : list Customer.t)
    (merchants : list Merchant.t) (accounts : list Account.t)
    : Gen Transaction.t :=
  customer <- choice customers ;;
  merchant <- choice merchants ;;
  account <- pick_account customer accounts ;;
  tid <- uuid4 ;;
  amt <- uniform_round2 5 2000 ;;
  ty <- choice transaction_types ;;
  cat <- choice categories ;;
  txt <- faker Faker.text ;;
  dt <- faker Faker.date_time_between ;;
  st <- pick_status ;;
  ret (Transaction.mk tid (Customer.customer_id customer)
         (Merchant.merchant_id merchant) (Account.account_id account)
         amt ty cat (Merchant.merchant_name merchant ++ " - " ++ txt) dt st).

Definition generate_sample_data (num_customers num_merchants num_transactions : Z)
    : Gen Dataset :=
  customers <- for_range (Z.to_nat num_customers) make_customer [] ;;
  merchants <- for_range (Z.to_nat num_merchants) make_merchant [] ;;
  accounts <- for_each customers customer_accounts_step [] ;;
  transactions <-
    for_range (Z.to_nat num_transactions)
              (make_transaction customers merchants accounts) [] ;;
  ret (mkDataset customers merchants accounts transactions).

End Generator.

(** A concrete provider and tape, used to run the model. *)

Definition demo_str (prefix : string) (r : N) : string :=
  prefix ++ NilZero.string_of_uint (N.to_uint r).

Definition demo_faker : Faker.t :=
  Faker.mk (demo_str "first") (demo_str "last") (demo_str "mail")
           (demo_str "phone") (demo_str "street") (demo_str "city")
           (demo_str "st") (demo_str "zip")
           (fun r => 720000 + Z.of_N r)%Z (fun r => 738000 + Z.of_N r)%Z
           (demo_str "company") (demo_str "cmail") (demo_str "bban")
           (demo_str "text") (fun r => 1700000000 + Z.of_N r)%Z.

Definition demo_entropy (i : nat) : N := (N.of_nat i * 7919 + 13)%N.

(** ** String operations used by the endpoints *)

(** [c.isspace()] on ASCII: tab to carriage return, the four separators
    [\x1c]..[\x1f], and the space. *)
Definition isspace (c : ascii) : bool :=
  let n := nat_of_ascii c in
  ((9 <=? n)%nat && (n <=? 13)%nat) || ((28 <=? n)%nat && (n <=? 32)%nat).

Fixpoint lstrip (s : string) : string :=
  match s with
  | EmptyString => EmptyString
  | String c rest => if isspace c then lstrip rest else s
  end.

Fixpoint rstrip (s : string) : string :=
  match s with
  | EmptyString => EmptyString
  | String c rest =>
      match rstrip rest with
      | EmptyString => if isspace c then EmptyString else String c EmptyString
      | kept => String c kept
      end
  end.

(** [s.strip()] for an ASCII [s]. *)
Definition strip (s : string) : string := rstrip (lstrip s).

Definition upper_char (c : ascii) : ascii :=
  let n := nat_of_ascii c in
  if (97 <=? n)%nat && (n <=? 122)%nat then ascii_of_nat (n - 32) else c.

(** [s.upper()] for an ASCII [s]. *)
Fixpoint upper (s : string) : string :=
  match s with
  | EmptyString => EmptyString
  | String c rest => String (upper_char c) (upper rest)
  end.

(** Occurrences of a non-empty [sub] in [s] that do not overlap, scanning
    from the left; [skip] characters of the last match are still to pass. *)
Fixpoint count_from (sub s : string) (skip : nat) : nat :=
  match s with
  | EmptyString => O
  | String _ rest =>
      match skip with
      | S k => count_from sub rest k
      | O =>
          if String.prefix sub s
          then S (count_from sub rest (String.length sub - 1))
          else count_from sub rest O
      end
  end.

(** [s.count(sub)] *)
Definition count (s sub : string) : nat :=
  match sub with
  | EmptyString => S (String.length s)
  | _ => count_from sub s O
  end.

(** [str(n)] for an [int]. *)
Definition str_int (n : Z) : string := NilZero.string_of_int (Z.to_int n).

(** [str(e)] for the exceptions of the model; an [HTTPException] prints as
    its status code, a colon and its detail. *)
Definition str_exn (e : exn) : string :=
  match e with
  | IndexError msg | ValueError msg | ValidationError msg
  | AttributeError msg | DriverError msg => msg
  | HTTPException status_code detail => str_int status_code ++ ": " ++ detail
  end.

(** ** The warehouse driver and the request models *)

Module SnowflakeConnection.
Record t : Type := mk {
  account : string;
  username : string;
  password : string;
  warehouse : string;
  database : string;
  schema : string
}.
End SnowflakeConnection.

Module QueryRequest.
Record t : Type := mk {
  sql_query : string;
  limit : option Z
}.
End QueryRequest.

Module DataGenerationRequest.
Record t : Type := mk {
  customers : Z;
  merchants : Z;
  transactions : Z
}.
End DataGenerationRequest.

(** A cell of a result set or of a data frame. *)
Inductive value : Type :=
| VNone
| VInt (n : Z)
| VCents (n : Z)
| VDate (d : Z)
| VStr (s : string).

(** A data frame built from a list of dicts: one association list per row. *)
Definition DataFrame : Type := list (list (string * value)).

(** A live session of the driver. *)
Definition handle : Type := nat.

(** What was handed to the driver, oldest call first. *)
Inductive event : Type :=
| Connect (params : SnowflakeConnection.t)
| CursorExecute (conn : handle) (query : string)
| WritePandas (conn : handle) (df : DataFrame) (table_name if_exists : string)
              (auto_create_table : bool).

(** The cursor after [cursor.execute]: [fetchall()] and [description], whose
    entries are reduced to their first component, the column name. *)
Record Cursor : Type := mkCursor {
  fetchall : string + list (list value);
  description : option (list string)
}.

(** The external collaborator.  Each entry answers one call, given the calls
    made before it; [inl msg] is an exception whose [str] is [msg]. *)
Record Driver : Type := mkDriver {
  connector_connect : list event -> SnowflakeConnection.t -> string + handle;
  cursor_execute : list event -> handle -> string -> string + Cursor;
  write_pandas : list event -> handle -> DataFrame -> string -> string -> bool ->
                 string + (bool * Z * Z)
}.

(** The process-wide state: the [snowflake_manager] instance, the calls
    received by the driver, and the cursor on the entropy tape. *)
Record World : Type := mkWorld {
  connection : option handle;
  connection_params : option SnowflakeConnection.t;
  history : list event;
  cursor : nat
}.

(** [SnowflakeManager()] in a fresh process. *)
Definition initial_world : World := mkWorld None None [] O.

Definition IO (A : Type) : Type := M World A.

Definition set_connection (c : option handle) : IO unit :=
  fun w => (Ok tt, mkWorld c (connection_params w) (history w) (cursor w)).

Definition set_connection_params (p : option SnowflakeConnection.t) : IO unit :=
  fun w => (Ok tt, mkWorld (connection w) p (history w) (cursor w)).

Definition get_connection : IO (option handle) :=
  fun w => (Ok (connection w), w).

Definition get_connection_params : IO (option SnowflakeConnection.t) :=
  fun w => (Ok (connection_params w), w).

(** A call to the driver: answered from the history, then recorded. *)
Definition call_driver {A} (answer : list event -> string + A) (ev : event) : IO A :=
  fun w =>
    let w' := mkWorld (connection w) (connection_params w) (history w ++ [ev])
                      (cursor w) in
    match answer (history w) with
    | inr a => (Ok a, w')
    | inl msg => (Raise (DriverError msg), w')
    end.

(** A generator run inside a request: it moves the entropy cursor only. *)
Definition run_gen {A} (g : Gen A) : IO A :=
  fun w =>
    let (r, j) := g (cursor w) in
    (r, mkWorld (connection w) (connection_params w) (history w) j).

(** The replies of the gateway and of the endpoints. *)
Inductive QueryReply : Type :=
| QueryTable (columns : list string) (data : list (list value))
| QueryMessage (message : string).

Record LoadReply : Type := mkLoadReply {
  success : bool;
  chunks : Z;
  rows : Z
}.

Inductive StatusReply : Type :=
| StatusConnected (database : string)
| StatusDisconnected.

Record DataCounts : Type := mkDataCounts {
  count_customers : nat;
  count_merchants : nat;
  count_accounts : nat;
  count_transactions : nat
}.

Record GenerateReply : Type := mkGenerateReply {
  message : string;
  data_counts : DataCounts;
  load_results : list (string * LoadReply)
}.

(** An answer already held by a driver object. *)
Definition from_driver {A} (answer : string + A) : IO A :=
  match answer with
  | inr a => ret a
  | inl msg => raise (DriverError msg)
  end.

(** ** [class SnowflakeManager] *)

Module SnowflakeManager.
Section Methods.

Variable driver : Driver.

Definition connect (params : SnowflakeConnection.t) : IO bool :=
  try_except
    (_ <- set_connection_params (Some params) ;;
     conn <- call_driver (fun past => connector_connect driver past params)
                         (Connect params) ;;
     _ <- set_connection (Some conn) ;;
     ret true)
    (fun e =>
       raise (HTTPException 400 ("Snowflake connection failed: " ++ str_exn e))).

Definition execute_query (query : string) (fetch_results : bool) : IO QueryReply :=
  c <- get_connection ;;
  match c with
  | None => raise (HTTPException 400 "No active Snowflake connection")
  | Some conn =>
      try_except
        (cur <- call_driver (fun past => cursor_execute driver past conn query)
                            (CursorExecute conn query) ;;
         if fetch_results then
           results <- from_driver (fetchall cur) ;;
           ret (QueryTable
                  (match description cur with Some d => d | None => [] end)
                  results)
         else ret (QueryMessage "Query executed successfully"))
        (fun e => raise (HTTPException 400 ("Query failed: " ++ str_exn e)))
  end.

Definition load_dataframe (df : DataFrame) (table_name if_exists : string)
    : IO LoadReply :=
  c <- get_connection ;;
  match c with
  | None => raise (HTTPException 400 "No active Snowflake connection")
  | Some conn =>
      try_except
        (r <- call_driver
                (fun past => write_pandas driver past conn df table_name
                                          if_exists true)
                (WritePandas conn df table_name if_exists true) ;;
         let '(success, nchunks, nrows) := r in
         ret (mkLoadReply success nchunks nrows))
        (fun e => raise (HTTPException 400 ("Data load failed: " ++ str_exn e)))
  end.

End Methods.
End SnowflakeManager.

(** ** The data frames of [generate_data]: [pd.DataFrame(sample_data[...])] *)

Definition customer_row (c : Customer.t) : list (string * value) :=
  [("customer_id", VStr (Customer.customer_id c));
   ("first_name", VStr (Customer.first_name c));
   ("last_name", VStr (Customer.last_name c));
   ("email", VStr (Customer.email c));
   ("phone", VStr (Customer.phone c));
   ("address", VStr (Customer.address c));
   ("city", VStr (Customer.city c));
   ("state", VStr (Customer.state c));
   ("zip_code", VStr (Customer.zip_code c));
   ("date_of_birth", VDate (Customer.date_of_birth c));
   ("account_opening_date", VDate (Customer.account_opening_date c));
   ("risk_score", VInt (Customer.risk_score c))].

Definition merchant_row (m : Merchant.t) : list (string * value) :=
  [("merchant_id", VStr (Merchant.merchant_id m));
   ("merchant_name", VStr (Merchant.merchant_name m));
   ("merchant_category", VStr (Merchant.merchant_category m));
   ("address", VStr (Merchant.address m));
   ("city", VStr (Merchant.city m));
   ("state", VStr (Merchant.state m));
   ("zip_code", VStr (Merchant.zip_code m));
   ("phone", VStr (Merchant.phone m));
   ("email", VStr (Merchant.email m))].

Definition account_row (a : Account.t) : list (string * value) :=
  [("account_id", VStr (Account.account_id a));
   ("customer_id", VStr (Account.customer_id a));
   ("account_type", VStr (Account.account_type a));
   ("account_number", VStr (Account.account_number a));
   ("balance", VCents (Account.balance a));
   ("opening_date", VDate (Account.opening_date a));
   ("status", VStr (Account.status a))].

Definition transaction_row (t : Transaction.t) : list (string * value) :=
  [("transaction_id", VStr (Transaction.transaction_id t));
   ("customer_id", VStr (Transaction.customer_id t));
   ("merchant_id", VStr (Transaction.merchant_id t));
   ("account_id", VStr (Transaction.account_id t));
   ("amount", VCents (Transaction.amount t));
   ("transaction_type", VStr (Transaction.transaction_type t));
   ("category", VStr (Transaction.category t));
   ("description", VStr (Transaction.description t));
   ("transaction_date", VDate (Transaction.transaction_date t));
   ("status", VStr (Transaction.status t))].

(** ** The endpoints *)

Section Endpoints.

Variable entropy : nat -> N.
Variable fake : Faker.t.
Variable driver : Driver.

(** [POST /snowflake/connect] *)
Definition connect_snowflake (connection : SnowflakeConnection.t)
    : IO (option (string * string)) :=
  try_except
    (success <- SnowflakeManager.connect driver connection ;;
     if success : bool
     then ret (Some ("Successfully connected to Snowflake", "connected"))
     else ret None)
    (fun e => raise (HTTPException 400 (str_exn e))).

(** [GET /snowflake/status] *)
Definition snowflake_status : IO StatusReply :=
  c <- get_connection ;;
  match c with
  | Some _ =>
      p <- get_connection_params ;;
      match p with
      | Some params => ret (StatusConnected (SnowflakeConnection.database params))
      | None =>
          raise (AttributeError "'NoneType' object has no attribute 'database'")
      end
  | None => ret StatusDisconnected
  end.

(** The query that [POST /query/execute] hands to the gateway for an ASCII
    request text: the text stripped, with a [LIMIT] clause added when the
    request has a limit and the upper-cased text has no [LIMIT] in it.
    [limited_query_with] is the same for any text. *)
Definition limited_query (request : QueryRequest.t) : string :=
  let query := strip (QueryRequest.sql_query request) in
  match QueryRequest.limit request with
  | Some n =>
      if negb (n =? 0)%Z && (count (upper query) "LIMIT" =? 0)%nat
      then query ++ " LIMIT " ++ str_int n
      else query
  | None => query
  end.

(** [POST /query/execute], for an ASCII request text;
    [execute_query_with] is the same for any text. *)
Definition execute_query (request : QueryRequest.t) : IO QueryReply :=
  c <- get_connection ;;
  match c with
  | None => raise (HTTPException 400 "No active Snowflake connection")
  | Some _ =>
      try_except
        (SnowflakeManager.execute_query driver (limited_query request) true)
        (fun e => raise (HTTPException 400 (str_exn e)))
  end.

(** [POST /data/generate] *)
Definition generate_data (request : DataGenerationRequest.t) : IO GenerateReply :=
  c <- get_connection ;;
  match c with
  | None => raise (HTTPException 400 "No active Snowflake connection")
  | Some _ =>
      try_except
        (sample_data <-
           run_gen (generate_sample_data entropy fake
                      (DataGenerationRequest.customers request)
                      (DataGenerationRequest.merchants request)
                      (DataGenerationRequest.transactions request)) ;;
         r_customers <-
           SnowflakeManager.load_dataframe driver
             (map customer_row (customers sample_data)) "customers" "replace" ;;
         r_merchants <-
           SnowflakeManager.load_dataframe driver
             (map merchant_row (merchants sample_data)) "merchants" "replace" ;;
         r_accounts <-
           SnowflakeManager.load_dataframe driver
             (map account_row (accounts sample_data)) "accounts" "replace" ;;
         r_transactions <-
           SnowflakeManager.load_dataframe driver
             (map transaction_row (transactions sample_data)) "transactions"
             "replace" ;;
         ret (mkGenerateReply
                "Sample data generated and loaded successfully"
                (mkDataCounts (List.length (customers sample_data))
                              (List.length (merchants sample_data))
                              (List.length (accounts sample_data))
                              (List.length (transactions sample_data)))
                [("customers", r_customers); ("merchants", r_merchants);
                 ("accounts", r_accounts); ("transactions", r_transactions)]))
        (fun e =>
           raise (HTTPException 400 ("Data generation failed: " ++ str_exn e)))
  end.

End Endpoints.

(** ** Concrete collaborators, used to run the model *)

(** A driver that rejects empty account names, runs every statement to an
    empty result set and loads every frame in one chunk. *)
Definition demo_driver : Driver :=
  mkDriver
    (fun past params =>
       if String.eqb (SnowflakeConnection.account params) ""
       then inl "250001: Could not connect to Snowflake backend"
       else inr (S (List.length past)))
    (fun _ _ _ => inr (mkCursor (inr []) (Some ["COUNT"])))
    (fun _ _ df _ _ _ => inr (true, 1%Z, Z.of_nat (List.length df))).

Definition demo_params : SnowflakeConnection.t :=
  SnowflakeConnection.mk "acme-eu1" "etl" "secret" "COMPUTE_WH" "FINANCIAL_DW"
                         "PUBLIC".

Definition bad_params : SnowflakeConnection.t :=
  SnowflakeConnection.mk "" "" "" "COMPUTE_WH" "OTHER_DB" "PUBLIC".

(** The world after a successful [connect] with [demo_params]. *)
Definition connected_world : World :=
  mkWorld (Some 1%nat) (Some demo_params) [Connect demo_params] O.

(** A customer, a merchant and an account held by somebody else: the
    situation in which the transactions loop falls back on [accounts[0]]. *)
Definition lone_customer : Customer.t :=
  Customer.mk "c-1" "Ada" "Diaz" "ada@example.org" "555-0100" "1 Main St"
              "Springfield" "IL" "62701" 727000 738500 42.

Definition lone_merchant : Merchant.t :=
  Merchant.mk "m-1" "Acme" "Retail" "2 Main St" "Springfield" "IL" "62701"
              "555-0101" "shop@example.org".

Definition foreign_account : Account.t :=
  Account.mk "a-9" "c-2" "savings" "GB00ACME" 250000 738000 "active".

(** ** The remaining endpoints

    [GET /analytics/dashboard] converts driver values with [float] and is
    left out of the model, as is the shutdown hook. *)

(** [for x in l: body(x)], in any state. *)
Fixpoint iterate {St A} (l : list A) (body : A -> M St unit) : M St unit :=
  match l with
  | [] => ret tt
  | x :: rest => _ <- body x ;; iterate rest body
  end.

Module SetupReply.
Record t : Type := mk {
  message : string;
  tables_created : Z;
  views_created : Z
}.
End SetupReply.

Module ExampleQuery.
Record t : Type := mk {
  title : string;
  description : string;
  query : string
}.
End ExampleQuery.

(** The statements of [setup_database], with the line breaks and the
    indentation of the source. *)
Definition setup_queries : list string :=
  ["CREATE DATABASE IF NOT EXISTS FINANCIAL_DW";
   "USE DATABASE FINANCIAL_DW";
   "CREATE SCHEMA IF NOT EXISTS PUBLIC";
   "USE SCHEMA PUBLIC";
   "CREATE OR REPLACE TABLE customers (
            customer_id VARCHAR(50) PRIMARY KEY,
            first_name VARCHAR(100),
            last_name VARCHAR(100),
            email VARCHAR(200),
            phone VARCHAR(20),
            address VARCHAR(500),
            city VARCHAR(100),
            state VARCHAR(10),
            zip_code VARCHAR(20),
            date_of_birth DATE,
            account_opening_date DATE,
            risk_score INTEGER
        )";
   "CREATE OR REPLACE TABLE merchants (
            merchant_id VARCHAR(50) PRIMARY KEY,
            merchant_name VARCHAR(200),
            merchant_category VARCHAR(100),
            address VARCHAR(500),
            city VARCHAR(100),
            state VARCHAR(10),
            zip_code VARCHAR(20),
            phone VARCHAR(20),
            email VARCHAR(200)
        )";
   "CREATE OR REPLACE TABLE accounts (
            account_id VARCHAR(50) PRIMARY KEY,
            customer_id VARCHAR(50),
            account_type VARCHAR(50),
            account_number VARCHAR(50),
            balance DECIMAL(15,2),
            opening_date DATE,
            status VARCHAR(20)
        )";
   "CREATE OR REPLACE TABLE transactions (
            transaction_id VARCHAR(50) PRIMARY KEY,
            customer_id VARCHAR(50),
            merchant_id VARCHAR(50),
            account_id VARCHAR(50),
            amount DECIMAL(15,2),
            transaction_type VARCHAR(50),
            category VARCHAR(100),
            description TEXT,
            transaction_date TIMESTAMP,
            status VARCHAR(20)
        )";
   "CREATE OR REPLACE VIEW daily_transaction_summary AS
        SELECT 
            DATE(transaction_date) as transaction_date,
            COUNT(*) as transaction_count,
            SUM(amount) as total_amount,
            AVG(amount) as avg_amount,
            COUNT(DISTINCT customer_id) as unique_customers
        FROM transactions 
        WHERE status = 'completed'
        GROUP BY DATE(transaction_date)";
   "CREATE OR REPLACE VIEW customer_spending_summary AS
        SELECT 
            c.customer_id,
            c.first_name || ' ' || c.last_name as customer_name,
            COUNT(t.transaction_id) as transaction_count,
            SUM(t.amount) as total_spent,
            AVG(t.amount) as avg_transaction,
            c.risk_score
        FROM customers c
        LEFT JOIN transactions t ON c.customer_id = t.customer_id
        WHERE t.status = 'completed' OR t.status IS NULL
        GROUP BY c.customer_id, c.first_name, c.last_name, c.risk_score"].

(** The catalogue of [get_example_queries]. *)
Definition examples : list ExampleQuery.t :=
  [ExampleQuery.mk
     "Basic Transaction Query"
     "Get all transactions for a specific customer"
     "SELECT * FROM transactions WHERE customer_id = 'CUSTOMER_ID_HERE' ORDER BY transaction_date DESC;";
   ExampleQuery.mk
     "Daily Transaction Summary"
     "Get transaction count and total amount by day"
     "SELECT DATE(transaction_date) as date, COUNT(*) as transactions, SUM(amount) as total_amount FROM transactions GROUP BY DATE(transaction_date) ORDER BY date DESC;";
   ExampleQuery.mk
     "Top Spending Customers"
     "Find customers with highest total spending"
     "SELECT customer_name, total_spent, transaction_count FROM customer_spending_summary ORDER BY total_spent DESC LIMIT 10;";
   ExampleQuery.mk
     "Fraud Detection Query"
     "Find suspicious transactions (high amount, high-risk customers)"
     "SELECT t.*, c.risk_score FROM transactions t JOIN customers c ON t.customer_id = c.customer_id WHERE t.amount > 1000 AND c.risk_score > 70 ORDER BY t.amount DESC;";
   ExampleQuery.mk
     "Category Analysis"
     "Analyze spending by transaction category"
     "SELECT category, COUNT(*) as transaction_count, SUM(amount) as total_amount, AVG(amount) as avg_amount FROM transactions WHERE status = 'completed' GROUP BY category ORDER BY total_amount DESC;";
   ExampleQuery.mk
     "Monthly Trends"
     "Get monthly transaction trends"
     "SELECT YEAR(transaction_date) as year, MONTH(transaction_date) as month, COUNT(*) as transactions, SUM(amount) as volume FROM transactions GROUP BY YEAR(transaction_date), MONTH(transaction_date) ORDER BY year DESC, month DESC;"].

(** [GET /] *)
Definition root : IO (string * string) :=
  ret ("Financial Data Warehouse API", "1.0.0").

(** [GET /examples/queries] *)
Definition get_example_queries : IO (list ExampleQuery.t) := ret examples.

Section Router.

Variable entropy : nat -> N.
Variable fake : Faker.t.
Variable driver : Driver.

(** [POST /snowflake/setup] *)
Definition setup_database : IO SetupReply.t :=
  c <- get_connection ;;
  match c with
  | None => raise (HTTPException 400 "No active Snowflake connection")
  | Some _ =>
      try_except
        (_ <- iterate setup_queries
                (fun query =>
                   _ <- SnowflakeManager.execute_query driver query false ;;
                   ret tt) ;;
         ret (SetupReply.mk "Database schema created successfully" 4 2))
        (fun e =>
           raise (HTTPException 400 ("Schema creation failed: " ++ str_exn e)))
  end.

(** The requests that the router dispatches, with their validated bodies. *)
Inductive request : Type :=
| GetRoot
| PostConnect (body : SnowflakeConnection.t)
| GetStatus
| PostSetup
| PostGenerate (body : DataGenerationRequest.t)
| PostExecute (body : QueryRequest.t)
| GetExamples.

Inductive response : Type :=
| RootResponse (r : string * string)
| ConnectResponse (r : option (string * string))
| StatusResponse (r : StatusReply)
| SetupResponse (r : SetupReply.t)
| GenerateResponse (r : GenerateReply)
| QueryResponse (r : QueryReply)
| ExamplesResponse (r : list ExampleQuery.t).

(** One request served by the endpoint of its route. *)
Definition serve (rq : request) : IO response :=
  match rq with
  | GetRoot => r <- root ;; ret (RootResponse r)
  | PostConnect body =>
      r <- connect_snowflake driver body ;; ret (ConnectResponse r)
  | GetStatus => r <- snowflake_status ;; ret (StatusResponse r)
  | PostSetup => r <- setup_database ;; ret (SetupResponse r)
  | PostGenerate body =>
      r <- generate_data entropy fake driver body ;; ret (GenerateResponse r)
  | PostExecute body =>
      r <- execute_query driver body ;; ret (QueryResponse r)
  | GetExamples => r <- get_example_queries ;; ret (ExamplesResponse r)
  end.

(** The process state after a sequence of requests served one after the
    other; a request that raises is answered with an error and the process
    goes on. *)
Fixpoint serve_all (rqs : list request) (w : World) : World :=
  match rqs with
  | [] => w
  | rq :: rest => serve_all rest (snd (serve rq w))
  end.

End Router.

(** ** Predicates on the process state *)

(** A bad-request error. *)
Definition bad_request (e : exn) : Prop :=
  exists detail, e = HTTPException 400 detail.

(** The session and its parameters are those of [w]; the driver has only
    received more calls. *)
Definition session_kept (w w' : World) : Prop :=
  connection w' = connection w /\
  connection_params w' = connection_params w /\
  exists calls, history w' = history w ++ calls.

(** A stored session comes with stored parameters. *)
Definition params_known (w : World) : Prop :=
  connection w <> None -> connection_params w <> None.

(** The state can only move forward: a live session stays, the parameters
    of a live session stay known, the calls received by the driver are kept. *)
Definition moves_forward (w w' : World) : Prop :=
  (connection w <> None -> connection w' <> None) /\
  (params_known w -> params_known w') /\
  exists calls, history w' = history w ++ calls.

(** A computation that keeps the session, wherever it starts and however it
    ends. *)
Definition keeps_session {A} (m : IO A) : Prop :=
  forall w r w', m w = (r, w') -> session_kept w w'.

(** A computation whose only exceptions are bad-request errors. *)
Definition only_bad_requests {A} (m : IO A) : Prop :=
  forall w e w', m w = (Raise e, w') -> bad_request e.

(** The bulk loads of [generate_data] for the dataset [d], in order. *)
Definition load_events (conn : handle) (d : Dataset) : list event :=
  [WritePandas conn (map customer_row (customers d)) "customers" "replace" true;
   WritePandas conn (map merchant_row (merchants d)) "merchants" "replace" true;
   WritePandas conn (map account_row (accounts d)) "accounts" "replace" true;
   WritePandas conn (map transaction_row (transactions d)) "transactions"
               "replace" true].

(** The text form of a version-4 UUID: 36 characters, hyphens after the
    8th, 12th, 16th and 20th digit, and the version digit 4. *)
Definition is_uuid4_str (s : string) : Prop :=
  String.length s = 36%nat /\
  String.get 8 s = Some "-"%char /\
  String.get 13 s = Some "-"%char /\
  String.get 14 s = Some "4"%char /\
  String.get 18 s = Some "-"%char /\
  String.get 23 s = Some "-"%char.

(** [sub] occurs in [s]. *)
Definition occurs (sub s : string) : Prop :=
  exists before after, s = (before ++ sub ++ after)%string.

(** All characters of [s] are white space. *)
Fixpoint blank (s : string) : bool :=
  match s with
  | EmptyString => true
  | String c rest => isspace c && blank rest
  end.

(** ** The string methods of the interpreter

    [str.strip] and [str.upper] follow the Unicode tables of the
    interpreter, which are not part of the repository: the execute endpoint
    is modelled for any pair of them.  A [str] is held as its UTF-8
    encoding, on which concatenation and the count of an ASCII text are
    exact.  [strip] and [upper] above are these methods on ASCII text. *)
Record StrMethods : Type := mkStrMethods {
  py_strip : string -> string;
  py_upper : string -> string
}.

Definition ascii_methods : StrMethods := mkStrMethods strip upper.

(** The query that [POST /query/execute] hands to the gateway:
    [request.sql_query.strip()], with [" LIMIT {request.limit}"] added when
    [request.limit] is truthy and [query.upper().count('LIMIT')] is zero. *)
Definition limited_query_with (py : StrMethods) (request : QueryRequest.t)
    : string :=
  let query := py_strip py (QueryRequest.sql_query request) in
  match QueryRequest.limit request with
  | Some n =>
      if negb (n =? 0)%Z && (count (py_upper py query) "LIMIT" =? 0)%nat
      then query ++ " LIMIT " ++ str_int n
      else query
  | None => query
  end.

(** [POST /query/execute], for the string methods [py]. *)
Definition execute_query_with (py : StrMethods) (driver : Driver)
    (request : QueryRequest.t) : IO QueryReply :=
  c <- get_connection ;;
  match c with
  | None => raise (HTTPException 400 "No active Snowflake connection")
  | Some _ =>
      try_except
        (SnowflakeManager.execute_query driver (limited_query_with py request)
                                        true)
        (fun e => raise (HTTPException 400 (str_exn e)))
  end.

(** The driver's answer to the statement of rank [i] of [qs], the
    statements before it having been sent after the calls [past]. *)
Definition statement_answer (driver : Driver) (conn : handle)
    (past : list event) (qs : list string) (i : nat) : string + Cursor :=
  cursor_execute driver (past ++ map (CursorExecute conn) (firstn i qs)) conn
                 (nth i qs "").

(** The driver's answer to the bulk load of rank [i] of [loads], the loads
    before it having been made after the calls [past]. *)
Definition load_answer (driver : Driver) (past : list event)
    (loads : list event) (i : nat) : string + (bool * Z * Z) :=
  match nth_error loads i with
  | Some (WritePandas conn df table_name if_exists auto_create_table) =>
      write_pandas driver (past ++ firstn i loads) conn df table_name
                   if_exists auto_create_table
  | _ => inl ""
  end.

(** ** Predicates of the specification *)

(** The accounts [block] that one pass of the accounts loop appends for the
    customer [c]: one to three accounts, each carrying the customer's id and
    account-opening date. *)
Definition generated_for (c : Customer.t) (block : list Account.t) : Prop :=
  (1 <= List.length block <= 3)%nat /\
  Forall (fun a =>
            Account.customer_id a = Customer.customer_id c /\
            Account.opening_date a = Customer.account_opening_date c)
         block.

(** The account referenced by a transaction exists and is held by the
    customer referenced by the same transaction. *)
Definition consistent_transaction (accts : list Account.t) (tx : Transaction.t)
    : Prop :=
  exists a,
    In a accts /\
    Account.account_id a = Transaction.account_id tx /\
    Account.customer_id a = Transaction.customer_id tx.

(** Every customer of [cs] holds an account of [accts]. *)
Definition all_hold_accounts (cs : list Customer.t) (accts : list Account.t)
    : Prop :=
  forall c, In c cs ->
    exists a, In a accts /\ Account.customer_id a = Customer.customer_id c.

(** A customer's [risk_score] as the customers loop draws it. *)
Definition drawn_risk_score (c : Customer.t) : Prop :=
  (10 <= Customer.risk_score c <= 90)%Z.

(** What every dataset returned by [generate_sample_data] for the counts
    [c], [m] and [t] satisfies. *)
Record generated_dataset (c m t : Z) (d : Dataset) : Prop := mkGenerated {
  gen_customers : List.length (customers d) = Z.to_nat c;
  gen_risk : Forall drawn_risk_score (customers d);
  gen_merchants : List.length (merchants d) = Z.to_nat m;
  gen_accounts :
    exists blocks,
      accounts d = List.concat blocks /\
      Forall2 generated_for (customers d) blocks;
  gen_transactions : List.length (transactions d) = Z.to_nat t;
  gen_consistent :
    Forall (consistent_transaction (accounts d)) (transactions d)
}.

(** The outcome that a guard on the counts would give: a [ValidationError]
    raised before any draw, or a dataset without accounts and transactions. *)
Definition rejected_or_empty (i : nat) (r : result Dataset * nat) : Prop :=
  (exists msg, r = (Raise (ValidationError msg), i)) \/
  (exists d j, r = (Ok d, j) /\ accounts d = [] /\ transactions d = []).

(** The SQL texts that reached [cursor.execute], oldest first. *)
Definition forwarded_queries (w : World) : list string :=
  flat_map (fun ev =>
              match ev with
              | CursorExecute _ query => [query]
              | _ => []
              end)
           (history w).

(** The reading of C4 on the endpoint: the request's text itself reaches the
    driver. *)
Definition forwards_verbatim (driver : Driver) (request : QueryRequest.t)
    (w : World) : Prop :=
  forwarded_queries (snd (execute_query driver request w)) =
  forwarded_queries w ++ [QueryRequest.sql_query request].

(** * Properties *)

(** ** Running binds and loops *)

Lemma bind_Ok_inv {S A B} (m : M S A) (f : A -> M S B) s b s' :
  bind m f s = (Ok b, s') ->
  exists a s1, m s = (Ok a, s1) /\ f a s1 = (Ok b, s').
Proof.
  unfold bind. destruct (m s) as [[a | e] s1]; intros H.
  - exists a, s1. split; [reflexivity | exact H].
  - discriminate H.
Qed.

Lemma bind_Ok_run {S A B} (m : M S A) (f : A -> M S B) s a s1 :
  m s = (Ok a, s1) -> bind m f s = f a s1.
Proof. intros H. unfold bind. rewrite H. reflexivity. Qed.

Lemma bind_Raise_run {S A B} (m : M S A) (f : A -> M S B) s e s1 :
  m s = (Raise e, s1) -> bind m f s = (Raise e, s1).
Proof. intros H. unfold bind. rewrite H. reflexivity. Qed.

Ltac bind_inv H :=
  let a := fresh "a" in
  let k := fresh "k" in
  let Hm := fresh "Hm" in
  apply bind_Ok_inv in H; destruct H as (a & k & Hm & H).

Lemma for_range_Ok_inv {A} (P : A -> Prop) (body : Gen A) :
  (forall i x j, body i = (Ok x, j) -> P x) ->
  forall n acc i l j,
    for_range n body acc i = (Ok l, j) ->
    exists xs, l = acc ++ xs /\ List.length xs = n /\ Forall P xs.
Proof.
  intros Hbody n. induction n as [| n IH]; intros acc i l j H; simpl in H.
  - injection H as <- _. exists []. rewrite app_nil_r. auto.
  - bind_inv H. apply IH in H. destruct H as (xs & -> & Hlen & Hall).
    exists (a :: xs). rewrite <- app_assoc. simpl. repeat split.
    + now rewrite Hlen.
    + constructor; [eapply Hbody; eassumption | assumption].
Qed.

Lemma for_range_succeeds {A} (body : Gen A) :
  (forall i, exists x j, body i = (Ok x, j)) ->
  forall n acc i, exists l j, for_range n body acc i = (Ok l, j).
Proof.
  intros Hbody n. induction n as [| n IH]; intros acc i; simpl.
  - exists acc, i. reflexivity.
  - destruct (Hbody i) as (x & j & Hx).
    destruct (IH (acc ++ [x]) j) as (l & j' & Hl).
    exists l, j'. rewrite (bind_Ok_run _ _ _ _ _ Hx). exact Hl.
Qed.

Lemma for_range_Raise_first {A} (body : Gen A) n acc i e j :
  body i = (Raise e, j) -> for_range (S n) body acc i = (Raise e, j).
Proof. intros H. simpl. now apply bind_Raise_run. Qed.

Lemma for_each_succeeds {A S} (body : A -> S -> Gen S) :
  (forall x acc i, exists acc' j, body x acc i = (Ok acc', j)) ->
  forall l acc i, exists acc' j, for_each l body acc i = (Ok acc', j).
Proof.
  intros Hbody l. induction l as [| x l IH]; intros acc i; simpl.
  - exists acc, i. reflexivity.
  - destruct (Hbody x acc i) as (acc1 & j & Hx).
    destruct (IH acc1 j) as (acc2 & j' & Hl).
    exists acc2, j'. rewrite (bind_Ok_run _ _ _ _ _ Hx). exact Hl.
Qed.

(** ** The primitives of the generator *)

Section GeneratorFacts.

Variable entropy : nat -> N.
Variable fake : Faker.t.

Lemma randint_Ok_inv a b i x j :
  randint entropy a b i = (Ok x, j) -> (a <= x <= b)%Z.
Proof.
  unfold randint. destruct (Z.ltb_spec b a) as [Hlt | Hle]; [discriminate |].
  unfold bind, draw, ret. intros H. injection H as <- _.
  pose proof (Z.mod_pos_bound (Z.of_N (entropy i)) (b - a + 1)). lia.
Qed.

Lemma randint_succeeds a b i :
  (a <= b)%Z -> exists x, randint entropy a b i = (Ok x, S i).
Proof.
  intros Hab. unfold randint.
  destruct (Z.ltb_spec b a) as [Hlt | Hle]; [lia |].
  eexists. reflexivity.
Qed.

Lemma choice_cons_run {A} (d : A) (seq' : list A) i :
  choice entropy (d :: seq') i =
  (Ok (nth (N.to_nat (entropy i) mod List.length (d :: seq')) (d :: seq') d),
   S i).
Proof. reflexivity. Qed.

Lemma choice_cons_In {A} (d : A) (seq' : list A) r :
  In (nth (r mod List.length (d :: seq')) (d :: seq') d) (d :: seq').
Proof. apply nth_In. apply Nat.mod_upper_bound. discriminate. Qed.

Lemma choice_Ok_inv {A} (seq : list A) i x j :
  choice entropy seq i = (Ok x, j) -> In x seq.
Proof.
  destruct seq as [| d seq']; [discriminate |].
  rewrite choice_cons_run. intros H.
  assert (Hx : nth (N.to_nat (entropy i) mod List.length (d :: seq'))
                   (d :: seq') d = x) by congruence.
  rewrite <- Hx. apply choice_cons_In.
Qed.

Lemma choice_succeeds {A} (seq : list A) i :
  seq <> [] -> exists x, choice entropy seq i = (Ok x, S i) /\ In x seq.
Proof.
  intros Hne. destruct seq as [| d seq']; [congruence |].
  eexists. split; [apply choice_cons_run | apply choice_cons_In].
Qed.

Lemma choice_empty {A} i :
  choice entropy (@nil A) i =
  (Raise (IndexError "Cannot choose from an empty sequence"), i).
Proof. reflexivity. Qed.

(** ** Customers and merchants *)

Lemma make_customer_succeeds i :
  exists c j, make_customer entropy fake i = (Ok c, j).
Proof. eexists. eexists. reflexivity. Qed.

Lemma make_customer_risk i c j :
  make_customer entropy fake i = (Ok c, j) ->
  (10 <= Customer.risk_score c <= 90)%Z.
Proof.
  unfold make_customer. intros H. do 11 bind_inv H.
  bind_inv H. injection H as <- _. simpl.
  eapply randint_Ok_inv. eassumption.
Qed.

Lemma make_merchant_succeeds i :
  exists m j, make_merchant entropy fake i = (Ok m, j).
Proof. eexists. eexists. reflexivity. Qed.

End GeneratorFacts.

(** ** Accounts *)

Section AccountsLoop.

Variable entropy : nat -> N.
Variable fake : Faker.t.

Lemma make_account_succeeds c i :
  exists a j, make_account entropy fake c i = (Ok a, j).
Proof. eexists. eexists. reflexivity. Qed.

Lemma make_account_owner c i a j :
  make_account entropy fake c i = (Ok a, j) ->
  Account.customer_id a = Customer.customer_id c /\
  Account.opening_date a = Customer.account_opening_date c.
Proof.
  unfold make_account. intros H. do 4 bind_inv H.
  injection H as <- _. split; reflexivity.
Qed.

Lemma customer_accounts_step_succeeds c acc i :
  exists acc' j, customer_accounts_step entropy fake c acc i = (Ok acc', j).
Proof.
  unfold customer_accounts_step.
  destruct (randint_succeeds entropy 1 3 i) as (n & Hn); [lia |].
  rewrite (bind_Ok_run _ _ _ _ _ Hn).
  apply for_range_succeeds. apply make_account_succeeds.
Qed.

Lemma customer_accounts_step_inv c acc i acc' j :
  customer_accounts_step entropy fake c acc i = (Ok acc', j) ->
  exists block, acc' = acc ++ block /\ generated_for c block.
Proof.
  unfold customer_accounts_step. intros H. bind_inv H.
  apply randint_Ok_inv in Hm.
  eapply for_range_Ok_inv in H; [| intros ? ? ?; apply make_account_owner].
  destruct H as (block & -> & Hlen & Hall).
  exists block. split; [reflexivity |]. split; [lia | exact Hall].
Qed.

Lemma accounts_loop_inv cs :
  forall acc i accts j,
    for_each cs (customer_accounts_step entropy fake) acc i = (Ok accts, j) ->
    exists blocks,
      accts = acc ++ List.concat blocks /\ Forall2 generated_for cs blocks.
Proof.
  induction cs as [| c cs IH]; intros acc i accts j H; simpl in H.
  - injection H as <- _. exists []. simpl. rewrite app_nil_r. auto.
  - bind_inv H. apply customer_accounts_step_inv in Hm.
    destruct Hm as (block & -> & Hblock).
    apply IH in H. destruct H as (blocks & -> & Hblocks).
    exists (block :: blocks). simpl. rewrite app_assoc. auto.
Qed.

Lemma accounts_loop_succeeds cs acc i :
  exists accts j,
    for_each cs (customer_accounts_step entropy fake) acc i = (Ok accts, j).
Proof. apply for_each_succeeds. apply customer_accounts_step_succeeds. Qed.

End AccountsLoop.

(** What the block structure gives about sizes and membership. *)

Lemma blocks_length cs blocks :
  Forall2 generated_for cs blocks ->
  (List.length cs <= List.length (List.concat blocks) <= 3 * List.length cs)%nat.
Proof.
  induction 1 as [| c block cs blocks [Hlen _] _ IH]; simpl.
  - lia.
  - rewrite length_app. lia.
Qed.

Lemma blocks_owner cs blocks a :
  Forall2 generated_for cs blocks ->
  In a (List.concat blocks) ->
  exists c,
    In c cs /\
    Account.customer_id a = Customer.customer_id c /\
    Account.opening_date a = Customer.account_opening_date c.
Proof.
  induction 1 as [| c block cs blocks [_ Hall] _ IH]; simpl; intros Hin.
  - contradiction.
  - apply in_app_or in Hin. destruct Hin as [Hin | Hin].
    + rewrite Forall_forall in Hall. exists c. split; [now left | auto].
    + destruct (IH Hin) as (c' & Hc' & Hown). exists c'. split; [now right | auto].
Qed.

Lemma blocks_all_hold cs blocks :
  Forall2 generated_for cs blocks -> all_hold_accounts cs (List.concat blocks).
Proof.
  induction 1 as [| c block cs blocks [Hlen Hall] _ IH]; intros c' Hc'.
  - contradiction.
  - destruct Hc' as [<- | Hc'].
    + destruct block as [| a block]; [simpl in Hlen; lia |].
      exists a. split; [simpl; now left |].
      inversion Hall as [| ? ? [Hid _] _]; subst. exact Hid.
    + destruct (IH c' Hc') as (a & Hin & Hid).
      exists a. split; [| exact Hid].
      simpl. apply in_or_app. now right.
Qed.

(** ** Transactions *)

Section TransactionsLoop.

Variable entropy : nat -> N.
Variable fake : Faker.t.

Lemma accounts_of_In c accts a :
  In a (accounts_of c accts) <->
  In a accts /\ Account.customer_id a = Customer.customer_id c.
Proof.
  unfold accounts_of. rewrite filter_In. rewrite String.eqb_eq. reflexivity.
Qed.

Lemma pick_account_inv c accts i a j :
  pick_account entropy c accts i = (Ok a, j) ->
  In a (accounts_of c accts) \/
  (accounts_of c accts = [] /\ exists rest, accts = a :: rest).
Proof.
  unfold pick_account. destruct (accounts_of c accts) as [| a0 own] eqn:Hown.
  - intros H. right. split; [reflexivity |].
    destruct accts as [| a1 rest]; [discriminate |].
    injection H as -> _. now exists rest.
  - intros H. left. eapply choice_Ok_inv. eassumption.
Qed.

Lemma pick_account_succeeds c accts i :
  (exists a, In a accts /\ Account.customer_id a = Customer.customer_id c) ->
  exists a j, pick_account entropy c accts i = (Ok a, j).
Proof.
  intros (a & Ha). apply accounts_of_In in Ha.
  unfold pick_account. destruct (accounts_of c accts) as [| a0 own].
  - contradiction.
  - eexists. eexists. apply choice_cons_run.
Qed.

Lemma pick_status_succeeds i :
  exists s j, pick_status entropy i = (Ok s, j).
Proof.
  unfold pick_status, random_random, bind, draw, ret.
  destruct (lt_tenth _); eexists; eexists; reflexivity.
Qed.

Lemma make_transaction_inv cs ms accts i tx j :
  make_transaction entropy fake cs ms accts i = (Ok tx, j) ->
  exists c a,
    In c cs /\
    Transaction.customer_id tx = Customer.customer_id c /\
    Transaction.account_id tx = Account.account_id a /\
    (In a (accounts_of c accts) \/
     (accounts_of c accts = [] /\ exists rest, accts = a :: rest)).
Proof.
  unfold make_transaction. intros H.
  bind_inv H. rename a into c. apply choice_Ok_inv in Hm.
  bind_inv H. rename a into m. clear Hm0.
  bind_inv H. apply pick_account_inv in Hm0.
  do 7 bind_inv H. injection H as <- _.
  exists c, a. simpl. auto.
Qed.

Lemma make_transaction_consistent cs ms accts i tx j :
  make_transaction entropy fake cs ms accts i = (Ok tx, j) ->
  all_hold_accounts cs accts ->
  consistent_transaction accts tx.
Proof.
  intros H Hhold. apply make_transaction_inv in H.
  destruct H as (c & a & Hc & Hcid & Haid & [Hown | [Hnone _]]).
  - apply accounts_of_In in Hown. destruct Hown as [Hin Hid].
    exists a. repeat split; [exact Hin | now rewrite Haid | now rewrite Hcid].
  - exfalso. destruct (Hhold c Hc) as (a' & Ha').
    apply accounts_of_In in Ha'. rewrite Hnone in Ha'. contradiction.
Qed.

Lemma make_transaction_succeeds cs ms accts i :
  cs <> [] -> ms <> [] -> all_hold_accounts cs accts ->
  exists tx j, make_transaction entropy fake cs ms accts i = (Ok tx, j).
Proof.
  intros Hcs Hms Hhold. unfold make_transaction.
  destruct (choice_succeeds entropy cs i Hcs) as (c & Hrun & Hc).
  rewrite (bind_Ok_run _ _ _ _ _ Hrun).
  destruct (choice_succeeds entropy ms (S i) Hms) as (m & Hrun' & _).
  rewrite (bind_Ok_run _ _ _ _ _ Hrun').
  destruct (pick_account_succeeds c accts (S (S i)) (Hhold c Hc))
    as (a & k & Hpick).
  rewrite (bind_Ok_run _ _ _ _ _ Hpick).
  destruct (pick_status_succeeds (S (S (S (S (S (S k))))))) as (s & k' & Hs).
  cbv [bind uuid4 uniform_round2 faker draw ret choice transaction_types
       categories].
  rewrite Hs. eexists. eexists. reflexivity.
Qed.

Lemma make_transaction_no_customer ms accts i :
  make_transaction entropy fake [] ms accts i =
  (Raise (IndexError "Cannot choose from an empty sequence"), i).
Proof. reflexivity. Qed.

Lemma make_transaction_no_merchant c cs accts i :
  make_transaction entropy fake (c :: cs) [] accts i =
  (Raise (IndexError "Cannot choose from an empty sequence"), S i).
Proof. reflexivity. Qed.

End TransactionsLoop.

(** ** The whole generator *)

Section WholeGenerator.

Variable entropy : nat -> N.
Variable fake : Faker.t.

Lemma customers_loop n i :
  exists cs j,
    for_range n (make_customer entropy fake) [] i = (Ok cs, j) /\
    List.length cs = n /\ Forall drawn_risk_score cs.
Proof.
  destruct (for_range_succeeds _ (make_customer_succeeds entropy fake) n [] i)
    as (cs & j & Hrun).
  exists cs, j. split; [exact Hrun |].
  eapply for_range_Ok_inv in Hrun;
    [| intros ? ? ?; apply (make_customer_risk entropy fake)].
  destruct Hrun as (xs & -> & Hlen & Hall). simpl. auto.
Qed.

Lemma merchants_loop n i :
  exists ms j,
    for_range n (make_merchant entropy fake) [] i = (Ok ms, j) /\
    List.length ms = n.
Proof.
  destruct (for_range_succeeds _ (make_merchant_succeeds entropy fake) n [] i)
    as (ms & j & Hrun).
  exists ms, j. split; [exact Hrun |].
  eapply (for_range_Ok_inv (fun _ => True)) in Hrun; [| auto].
  destruct Hrun as (xs & -> & Hlen & _). simpl. auto.
Qed.

Lemma accounts_loop cs i :
  exists accts j blocks,
    for_each cs (customer_accounts_step entropy fake) [] i = (Ok accts, j) /\
    accts = List.concat blocks /\ Forall2 generated_for cs blocks.
Proof.
  destruct (accounts_loop_succeeds entropy fake cs [] i) as (accts & j & Hrun).
  destruct (accounts_loop_inv _ _ _ _ _ _ _ Hrun) as (blocks & Heq & Hblocks).
  exists accts, j, blocks. auto.
Qed.

Lemma transactions_loop_inv cs ms accts :
  all_hold_accounts cs accts ->
  forall n i txs j,
    for_range n (make_transaction entropy fake cs ms accts) [] i = (Ok txs, j) ->
    List.length txs = n /\ Forall (consistent_transaction accts) txs.
Proof.
  intros Hhold n i txs j Hrun.
  eapply for_range_Ok_inv in Hrun.
  - destruct Hrun as (xs & -> & Hlen & Hall). simpl. eauto.
  - intros i' tx j' Htx. simpl.
    eapply make_transaction_consistent; eassumption.
Qed.

Lemma generate_sample_data_inv c m t i d j :
  generate_sample_data entropy fake c m t i = (Ok d, j) ->
  generated_dataset c m t d.
Proof.
  unfold generate_sample_data. intros H.
  destruct (customers_loop (Z.to_nat c) i) as (cs & k1 & Hcs & Hlen & Hrisk).
  rewrite (bind_Ok_run _ _ _ _ _ Hcs) in H.
  destruct (merchants_loop (Z.to_nat m) k1) as (ms & k2 & Hms & Hlen').
  rewrite (bind_Ok_run _ _ _ _ _ Hms) in H.
  destruct (accounts_loop cs k2) as (accts & k3 & blocks & Hacc & Heq & Hblocks).
  rewrite (bind_Ok_run _ _ _ _ _ Hacc) in H.
  apply bind_Ok_inv in H. destruct H as (txs & k4 & Htx & H).
  injection H as <- _.
  assert (Hhold : all_hold_accounts cs accts)
    by (rewrite Heq; now apply blocks_all_hold).
  destruct (transactions_loop_inv _ ms _ Hhold _ _ _ _ Htx) as [Hlen'' Hcons].
  constructor; simpl; eauto.
Qed.

Lemma generate_sample_data_succeeds c m t i :
  (0 < c /\ 0 < m)%Z \/ (t <= 0)%Z ->
  exists d j, generate_sample_data entropy fake c m t i = (Ok d, j).
Proof.
  intros Hcounts. unfold generate_sample_data.
  destruct (customers_loop (Z.to_nat c) i) as (cs & k1 & Hcs & Hlen & _).
  rewrite (bind_Ok_run _ _ _ _ _ Hcs).
  destruct (merchants_loop (Z.to_nat m) k1) as (ms & k2 & Hms & Hlen').
  rewrite (bind_Ok_run _ _ _ _ _ Hms).
  destruct (accounts_loop cs k2) as (accts & k3 & blocks & Hacc & Heq & Hblocks).
  rewrite (bind_Ok_run _ _ _ _ _ Hacc).
  assert (Htxs : exists txs k4,
             for_range (Z.to_nat t) (make_transaction entropy fake cs ms accts)
                       [] k3 = (Ok txs, k4)).
  { destruct Hcounts as [[Hc Hm] | Ht].
    - apply for_range_succeeds. intros i'.
      apply make_transaction_succeeds.
      + destruct cs; [simpl in Hlen; lia | discriminate].
      + destruct ms; [simpl in Hlen'; lia | discriminate].
      + rewrite Heq. now apply blocks_all_hold.
    - replace (Z.to_nat t) with O by lia. simpl. eexists. eexists. reflexivity. }
  destruct Htxs as (txs & k4 & Htxs).
  rewrite (bind_Ok_run _ _ _ _ _ Htxs). eexists. eexists. reflexivity.
Qed.

Lemma generate_sample_data_raises c m t i :
  (c <= 0 \/ m <= 0)%Z -> (0 < t)%Z ->
  exists j,
    generate_sample_data entropy fake c m t i =
    (Raise (IndexError "Cannot choose from an empty sequence"), j).
Proof.
  intros Hzero Ht. unfold generate_sample_data.
  destruct (customers_loop (Z.to_nat c) i) as (cs & k1 & Hcs & Hlen & _).
  rewrite (bind_Ok_run _ _ _ _ _ Hcs).
  destruct (merchants_loop (Z.to_nat m) k1) as (ms & k2 & Hms & Hlen').
  rewrite (bind_Ok_run _ _ _ _ _ Hms).
  destruct (accounts_loop cs k2) as (accts & k3 & blocks & Hacc & _).
  rewrite (bind_Ok_run _ _ _ _ _ Hacc).
  destruct (Z.to_nat t) as [| n] eqn:Hn; [lia |].
  destruct cs as [| c0 cs].
  - exists k3. apply bind_Raise_run. apply for_range_Raise_first.
    apply make_transaction_no_customer.
  - destruct ms as [| m0 ms].
    + exists (S k3). apply bind_Raise_run. apply for_range_Raise_first.
      apply make_transaction_no_merchant.
    + simpl in Hlen, Hlen'. lia.
Qed.

End WholeGenerator.

(** * The generator's contract *)

(** C1. In every dataset returned by [generate_sample_data], each
    transaction's [account_id] is the id of an account of the dataset whose
    [customer_id] is that transaction's [customer_id].  In the fallback
    branch of the transactions loop, taken when no account carries the
    chosen customer's id, the transaction's [account_id] is the id of the
    first account of the whole accounts list. *)
Theorem transaction_account_of_customer (entropy : nat -> N) (fake : Faker.t) :
  (forall c m t i d j,
     generate_sample_data entropy fake c m t i = (Ok d, j) ->
     forall tx, In tx (transactions d) ->
       exists a,
         In a (accounts d) /\
         Account.account_id a = Transaction.account_id tx /\
         Account.customer_id a = Transaction.customer_id tx) /\
  (forall cs ms accts i tx j,
     make_transaction entropy fake cs ms accts i = (Ok tx, j) ->
     (forall a, In a accts ->
        Account.customer_id a <> Transaction.customer_id tx) ->
     exists first rest,
       accts = first :: rest /\
       Transaction.account_id tx = Account.account_id first).
Proof.
  split.
  - intros c m t i d j H tx Htx.
    apply generate_sample_data_inv in H. destruct H as [_ _ _ _ _ Hcons].
    rewrite Forall_forall in Hcons. exact (Hcons tx Htx).
  - intros cs ms accts i tx j H Hnone.
    apply make_transaction_inv in H.
    destruct H as (c & a & _ & Hcid & Haid & [Hown | [_ (rest & Heq)]]).
    + exfalso. apply accounts_of_In in Hown. destruct Hown as [Hin Hid].
      apply (Hnone a Hin). now rewrite Hcid.
    + exists a, rest. auto.
Qed.

Lemma transaction_account_of_customer_witness :
  (exists d j,
     generate_sample_data demo_entropy demo_faker 2 1 2 0 = (Ok d, j) /\
     forall tx, In tx (transactions d) ->
       exists a,
         In a (accounts d) /\
         Account.account_id a = Transaction.account_id tx /\
         Account.customer_id a = Transaction.customer_id tx) /\
  (exists tx j,
     make_transaction demo_entropy demo_faker [lone_customer] [lone_merchant]
                      [foreign_account] 0 = (Ok tx, j) /\
     Transaction.account_id tx = "a-9").
Proof.
  split.
  - eexists. eexists. split; [vm_compute; reflexivity |].
    eapply (proj1 (transaction_account_of_customer demo_entropy demo_faker)
                  2%Z 1%Z 2%Z 0%nat).
    vm_compute. reflexivity.
  - eexists. eexists. split; [vm_compute; reflexivity |].
    destruct (proj2 (transaction_account_of_customer demo_entropy demo_faker)
                [lone_customer] [lone_merchant] [foreign_account] 0%nat _ _
                eq_refl) as (first & rest & Heq & Hid).
    + intros a [<- | []]. vm_compute. discriminate.
    + injection Heq as <- _. reflexivity.
Defined.

(** C2. In every dataset returned by [generate_sample_data], the accounts
    list is the concatenation of one block per customer, in the order of the
    customers, every account of a block carrying the [customer_id] of the
    customer the block was created for; hence every account's [customer_id]
    is the [customer_id] of a customer of the same dataset. *)
Theorem account_customer_in_batch (entropy : nat -> N) (fake : Faker.t)
    (c m t : Z) (i : nat) (d : Dataset) (j : nat) :
  generate_sample_data entropy fake c m t i = (Ok d, j) ->
  (exists blocks,
     accounts d = List.concat blocks /\
     Forall2 (fun cu block =>
                Forall (fun a =>
                          Account.customer_id a = Customer.customer_id cu)
                       block)
             (customers d) blocks) /\
  (forall a, In a (accounts d) ->
     exists cu,
       In cu (customers d) /\
       Account.customer_id a = Customer.customer_id cu).
Proof.
  intros H. apply generate_sample_data_inv in H.
  destruct H as [_ _ _ (blocks & Heq & Hblocks) _ _]. split.
  - exists blocks. split; [exact Heq |].
    eapply Forall2_impl; [| exact Hblocks].
    intros cu block [_ Hall]. eapply Forall_impl; [| exact Hall].
    intros a [Hid _]. exact Hid.
  - intros a Hin. rewrite Heq in Hin.
    destruct (blocks_owner _ _ _ Hblocks Hin) as (cu & Hcu & Hid & _).
    exists cu. auto.
Qed.

Lemma account_customer_in_batch_witness :
  exists d j,
    generate_sample_data demo_entropy demo_faker 3 2 10 0 = (Ok d, j) /\
    forall a, In a (accounts d) ->
      exists cu,
        In cu (customers d) /\
        Account.customer_id a = Customer.customer_id cu.
Proof.
  eexists. eexists. split; [vm_compute; reflexivity |].
  eapply (account_customer_in_batch demo_entropy demo_faker 3 2 10 0).
  vm_compute. reflexivity.
Defined.

(** C3, as stated, fails: with no customers and one transaction asked for,
    [generate_sample_data] raises [IndexError] after the merchants loop has
    run; with no merchants and no transactions it returns a dataset whose
    accounts list is not empty. *)
Lemma zero_counts_not_guarded :
  ~ rejected_or_empty 0 (generate_sample_data demo_entropy demo_faker 0 1 1 0) /\
  ~ rejected_or_empty 0 (generate_sample_data demo_entropy demo_faker 1 0 0 0).
Proof.
  split.
  - intros [(msg & H) | (d & j & H & _)]; vm_compute in H; discriminate H.
  - intros [(msg & H) | (d & j & H & Hacc & _)]; vm_compute in H.
    + discriminate H.
    + injection H as <- _. discriminate Hacc.
Qed.

(** C3, amended.  With a customer count or a merchant count of zero,
    [generate_sample_data] checks nothing.  When no transaction is asked for
    it returns a dataset without transactions, whose merchants are empty if
    the merchant count is zero, whose customers and accounts are empty if
    the customer count is not positive, and whose customers and accounts
    are not empty if the customer count is positive.  When a transaction is
    asked for, [random.choice] on the empty population raises [IndexError]
    in the first pass of the transactions loop, and [generate_data] turns
    it into an HTTP 400 without handing anything to the driver. *)
Theorem zero_counts_behaviour (entropy : nat -> N) (fake : Faker.t)
    (c m t : Z) (i : nat) :
  (c = 0 \/ m = 0)%Z ->
  ((t <= 0)%Z ->
   exists d j,
     generate_sample_data entropy fake c m t i = (Ok d, j) /\
     transactions d = [] /\
     (m = 0%Z -> merchants d = []) /\
     ((c <= 0)%Z -> customers d = [] /\ accounts d = []) /\
     ((0 < c)%Z ->
      Z.of_nat (List.length (customers d)) = c /\
      (c <= Z.of_nat (List.length (accounts d)) <= 3 * c)%Z /\
      accounts d <> [])) /\
  ((0 < t)%Z ->
   (exists j,
      generate_sample_data entropy fake c m t i =
      (Raise (IndexError "Cannot choose from an empty sequence"), j)) /\
   (forall driver w conn,
      connection w = Some conn -> cursor w = i ->
      exists w',
        generate_data entropy fake driver (DataGenerationRequest.mk c m t) w =
        (Raise (HTTPException 400
                  "Data generation failed: Cannot choose from an empty sequence"),
         w') /\
        history w' = history w /\ connection w' = connection w)).
Proof.
  intros Hzero. split.
  - intros Ht.
    destruct (generate_sample_data_succeeds entropy fake c m t i (or_intror Ht))
      as (d & j & Hrun).
    exists d, j. split; [exact Hrun |].
    apply generate_sample_data_inv in Hrun.
    destruct Hrun as [Hcs _ Hms (blocks & Heq & Hblocks) Htx _].
    pose proof (blocks_length _ _ Hblocks) as Hlen. rewrite <- Heq in Hlen.
    split; [| split; [| split]].
    + apply length_zero_iff_nil. lia.
    + intros ->. apply length_zero_iff_nil. exact Hms.
    + intros Hc.
      assert (Hnil : customers d = []) by (apply length_zero_iff_nil; lia).
      split; [exact Hnil |]. rewrite Hnil in Hlen. simpl in Hlen.
      apply length_zero_iff_nil. lia.
    + intros Hc. split; [lia |]. split; [lia |].
      intros Hnil. rewrite Hnil in Hlen. simpl in Hlen. lia.
  - intros Ht.
    assert (Hle : (c <= 0 \/ m <= 0)%Z) by lia.
    destruct (generate_sample_data_raises entropy fake c m t i Hle Ht)
      as (j & Hrun).
    split; [now exists j |].
    intros driver w conn Hconn Hcur.
    assert (Hgen :
              run_gen (generate_sample_data entropy fake c m t) w =
              (Raise (IndexError "Cannot choose from an empty sequence"),
               mkWorld (connection w) (connection_params w) (history w) j))
      by (unfold run_gen; rewrite Hcur, Hrun; reflexivity).
    unfold generate_data, bind at 1, get_connection. rewrite Hconn.
    unfold try_except. simpl DataGenerationRequest.customers.
    simpl DataGenerationRequest.merchants.
    simpl DataGenerationRequest.transactions.
    rewrite (bind_Raise_run _ _ _ _ _ Hgen).
    eexists. split; [reflexivity |]. simpl. rewrite Hconn. auto.
Qed.

Lemma zero_counts_behaviour_witness :
  (exists d j,
     generate_sample_data demo_entropy demo_faker 1 0 0 0 = (Ok d, j) /\
     transactions d = [] /\ merchants d = [] /\ accounts d <> []) /\
  (exists j,
     generate_sample_data demo_entropy demo_faker 0 1 1 0 =
     (Raise (IndexError "Cannot choose from an empty sequence"), j)) /\
  (exists w',
     generate_data demo_entropy demo_faker demo_driver
                   (DataGenerationRequest.mk 0 1 1) connected_world =
     (Raise (HTTPException 400
               "Data generation failed: Cannot choose from an empty sequence"),
      w') /\
     history w' = history connected_world).
Proof.
  split; [| split].
  - destruct (proj1 (zero_counts_behaviour demo_entropy demo_faker 1 0 0 0
                       (or_intror eq_refl)))
      as (d & j & Hrun & Htx & Hms & _ & Hpos); [lia |].
    exists d, j. split; [exact Hrun |]. split; [exact Htx |].
    split; [now apply Hms | apply Hpos; lia].
  - apply (proj2 (zero_counts_behaviour demo_entropy demo_faker 0 1 1 0
                    (or_introl eq_refl))).
    lia.
  - destruct (proj2 (zero_counts_behaviour demo_entropy demo_faker 0 1 1 0
                       (or_introl eq_refl))) as [_ Hendpoint]; [lia |].
    destruct (Hendpoint demo_driver connected_world 1%nat eq_refl eq_refl)
      as (w' & Hrun & Hhist & _).
    exists w'. auto.
Defined.

(** C6. For positive counts [c], [m] and [t], [generate_sample_data]
    returns a dataset, a record of the four lists [customers], [merchants],
    [accounts] and [transactions], with exactly [c] customers, [m] merchants
    and [t] transactions. *)
Theorem positive_counts_sizes (entropy : nat -> N) (fake : Faker.t)
    (c m t : Z) (i : nat) :
  (0 < c)%Z -> (0 < m)%Z -> (0 < t)%Z ->
  exists d j,
    generate_sample_data entropy fake c m t i = (Ok d, j) /\
    Z.of_nat (List.length (customers d)) = c /\
    Z.of_nat (List.length (merchants d)) = m /\
    Z.of_nat (List.length (transactions d)) = t.
Proof.
  intros Hc Hm Ht.
  destruct (generate_sample_data_succeeds entropy fake c m t i
              (or_introl (conj Hc Hm))) as (d & j & Hrun).
  exists d, j. split; [exact Hrun |].
  apply generate_sample_data_inv in Hrun.
  destruct Hrun as [Hcs _ Hms _ Htx _]. lia.
Qed.

Lemma positive_counts_sizes_witness :
  exists d j,
    generate_sample_data demo_entropy demo_faker 3 2 10 0 = (Ok d, j) /\
    Z.of_nat (List.length (customers d)) = 3%Z /\
    Z.of_nat (List.length (merchants d)) = 2%Z /\
    Z.of_nat (List.length (transactions d)) = 10%Z.
Proof.
  apply (positive_counts_sizes demo_entropy demo_faker 3 2 10 0); lia.
Defined.

(** C7. In every dataset returned by [generate_sample_data], the number of
    accounts lies between the number of customers and three times that
    number; for a customer count [c] that is not negative these bounds are
    [c] and [3 * c]. *)
Theorem accounts_between_one_and_three_per_customer
    (entropy : nat -> N) (fake : Faker.t)
    (c m t : Z) (i : nat) (d : Dataset) (j : nat) :
  generate_sample_data entropy fake c m t i = (Ok d, j) ->
  (List.length (customers d) <= List.length (accounts d)
   <= 3 * List.length (customers d))%nat /\
  ((0 <= c)%Z ->
   Z.of_nat (List.length (customers d)) = c /\
   (c <= Z.of_nat (List.length (accounts d)) <= 3 * c)%Z).
Proof.
  intros H. apply generate_sample_data_inv in H.
  destruct H as [Hcs _ _ (blocks & Heq & Hblocks) _ _].
  pose proof (blocks_length _ _ Hblocks) as Hlen. rewrite <- Heq in Hlen.
  split; [exact Hlen |]. intros Hc. lia.
Qed.

Lemma accounts_between_one_and_three_per_customer_witness :
  exists d j,
    generate_sample_data demo_entropy demo_faker 3 2 10 0 = (Ok d, j) /\
    (3 <= Z.of_nat (List.length (accounts d)) <= 9)%Z.
Proof.
  eexists. eexists. split; [vm_compute; reflexivity |].
  eapply (accounts_between_one_and_three_per_customer demo_entropy demo_faker
            3 2 10 0).
  - vm_compute. reflexivity.
  - lia.
Defined.

(** C8. Every customer of a dataset returned by [generate_sample_data] has
    a [risk_score] between 10 and 90, which is within the bounds 0 and 100
    of the [Customer] model. *)
Theorem risk_score_in_range (entropy : nat -> N) (fake : Faker.t)
    (c m t : Z) (i : nat) (d : Dataset) (j : nat) :
  generate_sample_data entropy fake c m t i = (Ok d, j) ->
  forall cu, In cu (customers d) ->
    (10 <= Customer.risk_score cu <= 90)%Z /\
    (0 <= Customer.risk_score cu <= 100)%Z.
Proof.
  intros H cu Hcu. apply generate_sample_data_inv in H.
  destruct H as [_ Hrisk _ _ _ _]. rewrite Forall_forall in Hrisk.
  specialize (Hrisk cu Hcu). unfold drawn_risk_score in Hrisk. lia.
Qed.

Lemma risk_score_in_range_witness :
  exists d j,
    generate_sample_data demo_entropy demo_faker 3 2 10 0 = (Ok d, j) /\
    forall cu, In cu (customers d) ->
      (10 <= Customer.risk_score cu <= 90)%Z /\
      (0 <= Customer.risk_score cu <= 100)%Z.
Proof.
  eexists. eexists. split; [vm_compute; reflexivity |].
  eapply (risk_score_in_range demo_entropy demo_faker 3 2 10 0).
  vm_compute. reflexivity.
Defined.

(** C9. In every dataset returned by [generate_sample_data], the accounts
    list is the concatenation of one block per customer, and every account
    of a block has as [opening_date] the [account_opening_date] of the
    customer the block was created for, so that it is not earlier than that
    date. *)
Theorem opening_date_copied_from_customer (entropy : nat -> N) (fake : Faker.t)
    (c m t : Z) (i : nat) (d : Dataset) (j : nat) :
  generate_sample_data entropy fake c m t i = (Ok d, j) ->
  exists blocks,
    accounts d = List.concat blocks /\
    Forall2 (fun cu block =>
               Forall (fun a =>
                         Account.customer_id a = Customer.customer_id cu /\
                         Account.opening_date a =
                           Customer.account_opening_date cu /\
                         (Customer.account_opening_date cu <=
                            Account.opening_date a)%Z)
                      block)
            (customers d) blocks.
Proof.
  intros H. apply generate_sample_data_inv in H.
  destruct H as [_ _ _ (blocks & Heq & Hblocks) _ _].
  exists blocks. split; [exact Heq |].
  eapply Forall2_impl; [| exact Hblocks].
  intros cu block [_ Hall]. eapply Forall_impl; [| exact Hall].
  intros a [Hid Hdate]. repeat split; [exact Hid | exact Hdate | lia].
Qed.

Lemma opening_date_copied_from_customer_witness :
  exists d j blocks,
    generate_sample_data demo_entropy demo_faker 2 1 2 0 = (Ok d, j) /\
    accounts d = List.concat blocks /\
    Forall2 (fun cu block =>
               Forall (fun a =>
                         Account.customer_id a = Customer.customer_id cu /\
                         Account.opening_date a =
                           Customer.account_opening_date cu /\
                         (Customer.account_opening_date cu <=
                            Account.opening_date a)%Z)
                      block)
            (customers d) blocks.
Proof.
  destruct (opening_date_copied_from_customer demo_entropy demo_faker 2 1 2 0
              _ _ eq_refl) as (blocks & Heq & Hblocks).
  eexists. eexists. exists blocks. split; [reflexivity |]. split; assumption.
Defined.

(** * The gateway's contract *)

Section GatewayFacts.

Variable driver : Driver.

Lemma manager_execute_query_run w conn query fetch_results :
  connection w = Some conn ->
  exists r,
    SnowflakeManager.execute_query driver query fetch_results w =
    (r, mkWorld (connection w) (connection_params w)
                (history w ++ [CursorExecute conn query]) (cursor w)).
Proof.
  intros Hconn. destruct w as [c p past k]. simpl in Hconn. subst c.
  unfold SnowflakeManager.execute_query, bind at 1, get_connection.
  simpl. unfold try_except, bind, call_driver. simpl.
  destruct (cursor_execute driver past conn query) as [msg | cur].
  - eexists. reflexivity.
  - destruct fetch_results.
    + unfold from_driver.
      destruct (fetchall cur) as [msg | data]; eexists; reflexivity.
    + eexists. reflexivity.
Qed.

Lemma endpoint_execute_query_run w conn request :
  connection w = Some conn ->
  exists r,
    execute_query driver request w =
    (r, mkWorld (connection w) (connection_params w)
                (history w ++ [CursorExecute conn (limited_query request)])
                (cursor w)).
Proof.
  intros Hconn.
  destruct (manager_execute_query_run w conn (limited_query request) true Hconn)
    as (r & Hrun).
  destruct w as [c p past k]. simpl in Hconn. subst c.
  unfold execute_query, bind at 1, get_connection. simpl.
  unfold try_except. rewrite Hrun.
  destruct r as [reply | e]; eexists; reflexivity.
Qed.

End GatewayFacts.

(** C4, as stated, fails on the endpoint: a request with the default limit
    reaches the driver with a [LIMIT] clause added, and a request padded
    with blanks reaches it stripped. *)
Lemma endpoint_rewrites_query :
  ~ forwards_verbatim demo_driver
      (QueryRequest.mk "SELECT * FROM customers" (Some 1000%Z)) connected_world /\
  ~ forwards_verbatim demo_driver
      (QueryRequest.mk "  SELECT 1 LIMIT 1 " None) connected_world.
Proof. split; intros H; vm_compute in H; discriminate H. Qed.

Lemma limited_query_ascii request :
  limited_query request = limited_query_with ascii_methods request.
Proof. reflexivity. Qed.

Lemma execute_query_ascii driver request :
  execute_query driver request = execute_query_with ascii_methods driver request.
Proof. reflexivity. Qed.

Lemma endpoint_execute_query_with_run py driver w conn request :
  connection w = Some conn ->
  exists r,
    execute_query_with py driver request w =
    (r, mkWorld (connection w) (connection_params w)
                (history w ++
                 [CursorExecute conn (limited_query_with py request)])
                (cursor w)).
Proof.
  intros Hconn.
  destruct (manager_execute_query_run driver w conn
              (limited_query_with py request) true Hconn) as (r & Hrun).
  destruct w as [c p past k]. simpl in Hconn. subst c.
  unfold execute_query_with, bind at 1, get_connection. simpl.
  unfold try_except. rewrite Hrun.
  destruct r as [reply | e]; eexists; reflexivity.
Qed.

(** C4, amended.  [SnowflakeManager.execute_query] hands its [query]
    argument to [cursor.execute] as it is.  The endpoint [execute_query]
    hands over the request's text after [str.strip], followed by
    [" LIMIT n"] when the request's limit [n] is neither null nor zero and
    [str.upper] of the stripped text has no [LIMIT] in it, and by nothing
    otherwise; this holds whatever [str.strip] and [str.upper] compute. *)
Theorem query_forwarding (py : StrMethods) (driver : Driver) (w : World)
    (conn : handle) :
  connection w = Some conn ->
  (forall query fetch_results,
     history (snd (SnowflakeManager.execute_query driver query fetch_results w)) =
     history w ++ [CursorExecute conn query]) /\
  (forall request,
     history (snd (execute_query_with py driver request w)) =
     history w ++ [CursorExecute conn (limited_query_with py request)]) /\
  (forall text n,
     n <> 0%Z ->
     count (py_upper py (py_strip py text)) "LIMIT" = O ->
     limited_query_with py (QueryRequest.mk text (Some n)) =
     (py_strip py text ++ " LIMIT " ++ str_int n)%string) /\
  (forall text limit,
     limit = None \/ limit = Some 0%Z \/
     count (py_upper py (py_strip py text)) "LIMIT" <> O ->
     limited_query_with py (QueryRequest.mk text limit) = py_strip py text).
Proof.
  intros Hconn. split; [| split; [| split]].
  - intros query fetch_results.
    destruct (manager_execute_query_run driver w conn query fetch_results Hconn)
      as (r & ->).
    reflexivity.
  - intros request.
    destruct (endpoint_execute_query_with_run py driver w conn request Hconn)
      as (r & ->).
    reflexivity.
  - intros text n Hn Hcount. unfold limited_query_with.
    cbn [QueryRequest.sql_query QueryRequest.limit].
    rewrite Hcount. destruct (Z.eqb_spec n 0); [contradiction | reflexivity].
  - intros text limit H. unfold limited_query_with.
    cbn [QueryRequest.sql_query QueryRequest.limit].
    destruct limit as [n |]; [| reflexivity].
    destruct H as [H | [H | H]].
    + discriminate H.
    + injection H as ->. reflexivity.
    + destruct (Nat.eqb_spec (count (py_upper py (py_strip py text)) "LIMIT") 0).
      * contradiction.
      * rewrite andb_false_r. reflexivity.
Qed.

Lemma query_forwarding_witness :
  history (snd (SnowflakeManager.execute_query demo_driver
                  "  select 1  " true connected_world)) =
  [Connect demo_params; CursorExecute 1 "  select 1  "] /\
  history (snd (execute_query demo_driver
                  (QueryRequest.mk "  select 1  " (Some 1000%Z))
                  connected_world)) =
  [Connect demo_params; CursorExecute 1 "select 1 LIMIT 1000"].
Proof.
  destruct (query_forwarding ascii_methods demo_driver connected_world 1
              eq_refl)
    as (Hmanager & Hendpoint & _).
  split.
  - rewrite Hmanager. reflexivity.
  - rewrite execute_query_ascii, Hendpoint. reflexivity.
Defined.

(** C5. On a gateway without a connection, [execute_query] and
    [load_dataframe] raise the HTTP 400 error "No active Snowflake
    connection" whatever the query, the flag, the frame, the table and the
    mode are, and leave the world as it was: no connection is opened and the
    driver receives nothing. *)
Theorem disconnected_gateway_rejects (driver : Driver) (w : World) :
  connection w = None ->
  (forall query fetch_results,
     SnowflakeManager.execute_query driver query fetch_results w =
     (Raise (HTTPException 400 "No active Snowflake connection"), w)) /\
  (forall df table_name if_exists,
     SnowflakeManager.load_dataframe driver df table_name if_exists w =
     (Raise (HTTPException 400 "No active Snowflake connection"), w)).
Proof.
  intros Hconn. split; intros.
  - unfold SnowflakeManager.execute_query, bind, get_connection.
    rewrite Hconn. reflexivity.
  - unfold SnowflakeManager.load_dataframe, bind, get_connection.
    rewrite Hconn. reflexivity.
Qed.

Lemma disconnected_gateway_rejects_witness :
  SnowflakeManager.execute_query demo_driver "SELECT 1" true initial_world =
  (Raise (HTTPException 400 "No active Snowflake connection"), initial_world) /\
  SnowflakeManager.load_dataframe demo_driver
    [[("customer_id", VStr "c-1")]] "customers" "replace" initial_world =
  (Raise (HTTPException 400 "No active Snowflake connection"), initial_world).
Proof.
  destruct (disconnected_gateway_rejects demo_driver initial_world eq_refl)
    as [Hquery Hload].
  split; [apply Hquery | apply Hload].
Defined.

(** C10. A [connect] that the driver rejects raises the HTTP 400 error
    "Snowflake connection failed", leaves the stored connection as it was
    and has already replaced the stored parameters by the rejected ones.
    If a session was live before the call, the status endpoint then still
    answers connected, with the database name of the rejected parameters. *)
Theorem failed_connect_keeps_connection (driver : Driver) (w : World)
    (params : SnowflakeConnection.t) (msg : string) :
  connector_connect driver (history w) params = inl msg ->
  exists w',
    SnowflakeManager.connect driver params w =
    (Raise (HTTPException 400 ("Snowflake connection failed: " ++ msg)), w') /\
    connection w' = connection w /\
    connection_params w' = Some params /\
    (forall conn,
       connection w = Some conn ->
       snowflake_status w' =
       (Ok (StatusConnected (SnowflakeConnection.database params)), w')) /\
    (connection w = None -> snowflake_status w' = (Ok StatusDisconnected, w')).
Proof.
  intros Hdriver.
  unfold SnowflakeManager.connect, try_except, bind, set_connection_params,
    call_driver.
  simpl. rewrite Hdriver. eexists. split; [reflexivity |]. simpl.
  repeat split.
  - intros conn Hconn. unfold snowflake_status, bind, get_connection,
      get_connection_params. simpl. rewrite Hconn. reflexivity.
  - intros Hconn. unfold snowflake_status, bind, get_connection. simpl.
    rewrite Hconn. reflexivity.
Qed.

Lemma failed_connect_keeps_connection_witness :
  exists w',
    SnowflakeManager.connect demo_driver bad_params connected_world =
    (Raise (HTTPException 400
              "Snowflake connection failed: 250001: Could not connect to Snowflake backend"),
     w') /\
    connection w' = Some 1%nat /\
    connection_params w' = Some bad_params /\
    snowflake_status w' = (Ok (StatusConnected "OTHER_DB"), w').
Proof.
  destruct (failed_connect_keeps_connection demo_driver connected_world
              bad_params "250001: Could not connect to Snowflake backend"
              eq_refl)
    as (w' & Hrun & Hconn & Hparams & Hstatus & _).
  exists w'. repeat split; try assumption.
  apply (Hstatus 1%nat). reflexivity.
Defined.

(** * Further properties of the generator *)

(** ** Identifiers *)

Lemma version_nibble bits :
  N.land (N.shiftr (N.shiftr (uuid4_int bits) 64) 12) 15 = 4%N.
Proof.
  unfold uuid4_int.
  rewrite N.shiftr_shiftr. change (64 + 12)%N with 76%N.
  rewrite N.shiftr_lor, N.shiftr_ldiff.
  change (N.shiftr (N.shiftl 4 76) 76) with 4%N.
  change (N.shiftr (N.shiftl 61440 64) 76) with 15%N.
  rewrite N.land_lor_distr_l, N.land_ldiff. reflexivity.
Qed.

Lemma uuid_str_shape bits : is_uuid4_str (uuid_str (uuid4_int bits)).
Proof.
  unfold is_uuid4_str. repeat split; try reflexivity.
  cbn [uuid_str hex_digits append String.get Nat.eqb].
  change (4 * N.of_nat 3)%N with 12%N.
  rewrite version_nibble. reflexivity.
Qed.

Section FieldFacts.

Variable entropy : nat -> N.
Variable fake : Faker.t.

Lemma uuid4_Ok_inv i s j :
  uuid4 entropy i = (Ok s, j) -> is_uuid4_str s.
Proof.
  unfold uuid4, bind, draw, ret. intros H. injection H as <- _.
  apply uuid_str_shape.
Qed.

Lemma make_customer_id i c j :
  make_customer entropy fake i = (Ok c, j) ->
  is_uuid4_str (Customer.customer_id c).
Proof.
  unfold make_customer. intros H. do 12 bind_inv H.
  injection H as <- _. simpl. eapply uuid4_Ok_inv. eassumption.
Qed.

Lemma make_merchant_fields i m j :
  make_merchant entropy fake i = (Ok m, j) ->
  is_uuid4_str (Merchant.merchant_id m) /\
  In (Merchant.merchant_category m) merchant_categories.
Proof.
  unfold make_merchant. intros H. do 9 bind_inv H.
  apply uuid4_Ok_inv in Hm. apply choice_Ok_inv in Hm1.
  injection H as <- _. split; [exact Hm | exact Hm1].
Qed.

Lemma make_account_fields c i a j :
  make_account entropy fake c i = (Ok a, j) ->
  is_uuid4_str (Account.account_id a) /\
  Account.customer_id a = Customer.customer_id c /\
  In (Account.account_type a) account_types /\
  Account.status a = "active".
Proof.
  unfold make_account. intros H. do 4 bind_inv H.
  apply uuid4_Ok_inv in Hm. apply choice_Ok_inv in Hm0.
  injection H as <- _.
  split; [exact Hm | split; [reflexivity | split; [exact Hm0 | reflexivity]]].
Qed.

Lemma pick_status_inv i s j :
  pick_status entropy i = (Ok s, j) ->
  In s ["completed"; "pending"; "failed"].
Proof.
  unfold pick_status. intros H. bind_inv H.
  destruct (lt_tenth a).
  - eapply choice_Ok_inv. eassumption.
  - injection H as <- _. simpl. auto.
Qed.

Lemma make_transaction_fields cs ms accts i tx j :
  make_transaction entropy fake cs ms accts i = (Ok tx, j) ->
  is_uuid4_str (Transaction.transaction_id tx) /\
  (exists c, In c cs /\ Transaction.customer_id tx = Customer.customer_id c) /\
  (exists m txt,
     In m ms /\
     Transaction.merchant_id tx = Merchant.merchant_id m /\
     Transaction.description tx =
       (Merchant.merchant_name m ++ " - " ++ txt)%string) /\
  In (Transaction.transaction_type tx) transaction_types /\
  In (Transaction.category tx) categories /\
  In (Transaction.status tx) ["completed"; "pending"; "failed"].
Proof.
  unfold make_transaction. intros H.
  bind_inv H. rename a into c. apply choice_Ok_inv in Hm.
  bind_inv H. rename a into m. apply choice_Ok_inv in Hm0.
  bind_inv H. clear Hm1.
  bind_inv H. apply uuid4_Ok_inv in Hm1.
  bind_inv H. clear Hm2.
  bind_inv H. apply choice_Ok_inv in Hm2.
  bind_inv H. apply choice_Ok_inv in Hm3.
  bind_inv H. bind_inv H. clear Hm4 Hm5.
  bind_inv H. apply pick_status_inv in Hm4.
  injection H as <- _.
  split; [exact Hm1 |].
  split; [exists c; split; [exact Hm | reflexivity] |].
  split; [exists m; eexists; split; [exact Hm0 | split; reflexivity] |].
  split; [exact Hm2 |]. split; [exact Hm3 | exact Hm4].
Qed.

Lemma for_range_Forall {A} (Q : A -> Prop) (body : Gen A) :
  (forall i x j, body i = (Ok x, j) -> Q x) ->
  forall n acc i l j,
    for_range n body acc i = (Ok l, j) -> Forall Q acc -> Forall Q l.
Proof.
  intros Hbody n acc i l j H Hacc.
  destruct (for_range_Ok_inv Q body Hbody n acc i l j H) as (xs & -> & _ & Hxs).
  apply Forall_app. auto.
Qed.

Lemma for_each_Forall {A B} (Q : B -> Prop) (body : A -> list B -> Gen (list B)) :
  (forall x acc i acc' j,
     body x acc i = (Ok acc', j) -> Forall Q acc -> Forall Q acc') ->
  forall l acc i acc' j,
    for_each l body acc i = (Ok acc', j) -> Forall Q acc -> Forall Q acc'.
Proof.
  intros Hbody l. induction l as [| x l IH]; intros acc i acc' j H Hacc;
    simpl in H.
  - injection H as <- _. exact Hacc.
  - bind_inv H. eapply IH; [exact H |]. eapply Hbody; eassumption.
Qed.

Lemma accounts_loop_fields cs i accts j :
  for_each cs (customer_accounts_step entropy fake) [] i = (Ok accts, j) ->
  Forall (fun a =>
            is_uuid4_str (Account.account_id a) /\
            In (Account.account_type a) account_types /\
            Account.status a = "active")
         accts.
Proof.
  intros H. eapply for_each_Forall; [| exact H | constructor].
  intros c acc i' acc' j' Hstep Hacc.
  unfold customer_accounts_step in Hstep. bind_inv Hstep.
  eapply for_range_Forall; [| exact Hstep | exact Hacc].
  intros i0 x j0 Hx. apply make_account_fields in Hx. tauto.
Qed.

(** The four lists of a returned dataset, read off the four loops. *)
Lemma generate_sample_data_loops c m t i d j :
  generate_sample_data entropy fake c m t i = (Ok d, j) ->
  exists k1 k2 k3,
    for_range (Z.to_nat c) (make_customer entropy fake) [] i =
      (Ok (customers d), k1) /\
    for_range (Z.to_nat m) (make_merchant entropy fake) [] k1 =
      (Ok (merchants d), k2) /\
    for_each (customers d) (customer_accounts_step entropy fake) [] k2 =
      (Ok (accounts d), k3) /\
    for_range (Z.to_nat t)
              (make_transaction entropy fake (customers d) (merchants d)
                                (accounts d)) [] k3 =
      (Ok (transactions d), j).
Proof.
  unfold generate_sample_data. intros H.
  apply bind_Ok_inv in H. destruct H as (cs & k1 & Hcs & H).
  apply bind_Ok_inv in H. destruct H as (ms & k2 & Hms & H).
  apply bind_Ok_inv in H. destruct H as (accts & k3 & Hacc & H).
  apply bind_Ok_inv in H. destruct H as (txs & k4 & Htx & H).
  injection H as <- <-. simpl. exists k1, k2, k3. auto.
Qed.

End FieldFacts.

(** ** Accounts per customer *)

Lemma filter_all {A} (f : A -> bool) (l : list A) :
  Forall (fun a => f a = true) l -> filter f l = l.
Proof.
  induction 1 as [| a l Ha _ IH]; simpl; [reflexivity |].
  rewrite Ha, IH. reflexivity.
Qed.

Lemma filter_none {A} (f : A -> bool) (l : list A) :
  Forall (fun a => f a = false) l -> filter f l = [].
Proof.
  induction 1 as [| a l Ha _ IH]; simpl; [reflexivity |].
  rewrite Ha, IH. reflexivity.
Qed.

Lemma accounts_of_own_block c block :
  generated_for c block -> accounts_of c block = block.
Proof.
  intros [_ Hall]. apply filter_all.
  eapply Forall_impl; [| exact Hall].
  intros a [Hid _]. now apply String.eqb_eq.
Qed.

Lemma accounts_of_other_block c c0 block :
  generated_for c0 block ->
  Customer.customer_id c0 <> Customer.customer_id c ->
  accounts_of c block = [].
Proof.
  intros [_ Hall] Hne. apply filter_none.
  eapply Forall_impl; [| exact Hall].
  intros a [Hid _]. apply String.eqb_neq. now rewrite Hid.
Qed.

Lemma accounts_of_other_blocks c cs blocks :
  Forall2 generated_for cs blocks ->
  ~ In (Customer.customer_id c) (map Customer.customer_id cs) ->
  accounts_of c (List.concat blocks) = [].
Proof.
  intros Hblocks Hout. apply filter_none. apply Forall_forall. intros a Ha.
  destruct (blocks_owner _ _ _ Hblocks Ha) as (c' & Hc' & Hid & _).
  apply String.eqb_neq. rewrite Hid. intros Heq. apply Hout.
  rewrite <- Heq. now apply in_map.
Qed.

Lemma accounts_of_distinct cs blocks c :
  Forall2 generated_for cs blocks ->
  NoDup (map Customer.customer_id cs) ->
  In c cs ->
  (1 <= List.length (accounts_of c (List.concat blocks)) <= 3)%nat.
Proof.
  induction 1 as [| c0 block cs blocks Hblock Hblocks IH]; intros Hnodup Hin.
  - contradiction.
  - simpl in Hnodup. inversion Hnodup as [| ? ? Hout Hnodup']; subst.
    simpl. unfold accounts_of in *. rewrite filter_app. fold (accounts_of c block).
    fold (accounts_of c (List.concat blocks)). rewrite length_app.
    destruct Hin as [-> | Hin].
    + rewrite (accounts_of_own_block _ _ Hblock).
      rewrite (accounts_of_other_blocks _ _ _ Hblocks Hout).
      destruct Hblock as [Hlen _]. simpl. lia.
    + rewrite (accounts_of_other_block c c0 block Hblock).
      * simpl. apply IH; assumption.
      * intros Heq. apply Hout. rewrite Heq. now apply in_map.
Qed.

(** X1. Every transaction of a returned dataset references a customer and a
    merchant of the dataset, and its description is the name of that
    merchant followed by [" - "] and a text. *)
Theorem transaction_references_resolve (entropy : nat -> N) (fake : Faker.t)
    (c m t : Z) (i : nat) (d : Dataset) (j : nat) :
  generate_sample_data entropy fake c m t i = (Ok d, j) ->
  forall tx, In tx (transactions d) ->
    (exists cu,
       In cu (customers d) /\
       Transaction.customer_id tx = Customer.customer_id cu) /\
    (exists me txt,
       In me (merchants d) /\
       Transaction.merchant_id tx = Merchant.merchant_id me /\
       Transaction.description tx =
         (Merchant.merchant_name me ++ " - " ++ txt)%string).
Proof.
  intros H tx Htx.
  destruct (generate_sample_data_loops _ _ _ _ _ _ _ _ H)
    as (k1 & k2 & k3 & _ & _ & _ & Hloop).
  eapply for_range_Forall in Hloop;
    [| intros ? ? ?; apply make_transaction_fields | constructor].
  rewrite Forall_forall in Hloop. specialize (Hloop tx Htx). tauto.
Qed.

Lemma transaction_references_resolve_witness :
  exists d j,
    generate_sample_data demo_entropy demo_faker 1 1 1 0 = (Ok d, j) /\
    forall tx, In tx (transactions d) ->
      (exists cu,
         In cu (customers d) /\
         Transaction.customer_id tx = Customer.customer_id cu) /\
      (exists me txt,
         In me (merchants d) /\
         Transaction.merchant_id tx = Merchant.merchant_id me /\
         Transaction.description tx =
           (Merchant.merchant_name me ++ " - " ++ txt)%string).
Proof.
  eexists. eexists. split; [vm_compute; reflexivity |].
  eapply (transaction_references_resolve demo_entropy demo_faker 1 1 1 0).
  vm_compute. reflexivity.
Defined.

(** X2. In a returned dataset every merchant category, account type,
    transaction type, transaction category and transaction status is one of
    the values listed in the source, and every account is active. *)
Theorem enumerated_fields (entropy : nat -> N) (fake : Faker.t)
    (c m t : Z) (i : nat) (d : Dataset) (j : nat) :
  generate_sample_data entropy fake c m t i = (Ok d, j) ->
  (forall me, In me (merchants d) ->
     In (Merchant.merchant_category me)
        ["Restaurant"; "Grocery"; "Gas Station"; "Retail"; "Online";
         "Pharmacy"; "Entertainment"]) /\
  (forall a, In a (accounts d) ->
     In (Account.account_type a) ["checking"; "savings"; "credit"] /\
     Account.status a = "active") /\
  (forall tx, In tx (transactions d) ->
     In (Transaction.transaction_type tx)
        ["purchase"; "withdrawal"; "deposit"; "transfer"; "payment"] /\
     In (Transaction.category tx)
        ["Food & Dining"; "Shopping"; "Transportation"; "Bills";
         "Entertainment"; "Healthcare"; "Travel"] /\
     In (Transaction.status tx) ["completed"; "pending"; "failed"]).
Proof.
  intros H.
  destruct (generate_sample_data_loops _ _ _ _ _ _ _ _ H)
    as (k1 & k2 & k3 & _ & Hms & Hacc & Htx).
  split; [| split].
  - intros me Hme.
    eapply for_range_Forall in Hms;
      [| intros ? ? ?; apply make_merchant_fields | constructor].
    rewrite Forall_forall in Hms. exact (proj2 (Hms me Hme)).
  - intros a Ha. apply accounts_loop_fields in Hacc.
    rewrite Forall_forall in Hacc. exact (proj2 (Hacc a Ha)).
  - intros tx Hin.
    eapply for_range_Forall in Htx;
      [| intros ? ? ?; apply make_transaction_fields | constructor].
    rewrite Forall_forall in Htx.
    destruct (Htx tx Hin) as (_ & _ & _ & Hty & Hcat & Hst). auto.
Qed.

Lemma enumerated_fields_witness :
  exists d j,
    generate_sample_data demo_entropy demo_faker 1 1 1 0 = (Ok d, j) /\
    forall tx, In tx (transactions d) ->
      In (Transaction.status tx) ["completed"; "pending"; "failed"].
Proof.
  eexists. eexists. split; [vm_compute; reflexivity |].
  intros tx Htx.
  eapply (enumerated_fields demo_entropy demo_faker 1 1 1 0);
    [vm_compute; reflexivity | exact Htx].
Defined.

(** X3. The primary keys of a returned dataset are version-4 UUID strings:
    36 characters, hyphens at the four fixed places and the version digit
    4; they fit the [VARCHAR(50)] key columns of the schema. *)
Theorem primary_keys_are_uuid4_strings (entropy : nat -> N) (fake : Faker.t)
    (c m t : Z) (i : nat) (d : Dataset) (j : nat) :
  generate_sample_data entropy fake c m t i = (Ok d, j) ->
  (forall cu, In cu (customers d) -> is_uuid4_str (Customer.customer_id cu)) /\
  (forall me, In me (merchants d) -> is_uuid4_str (Merchant.merchant_id me)) /\
  (forall a, In a (accounts d) -> is_uuid4_str (Account.account_id a)) /\
  (forall tx, In tx (transactions d) ->
     is_uuid4_str (Transaction.transaction_id tx)).
Proof.
  intros H.
  destruct (generate_sample_data_loops _ _ _ _ _ _ _ _ H)
    as (k1 & k2 & k3 & Hcs & Hms & Hacc & Htx).
  split; [| split; [| split]].
  - intros cu Hcu.
    eapply for_range_Forall in Hcs;
      [| intros ? ? ?; apply make_customer_id | constructor].
    rewrite Forall_forall in Hcs. exact (Hcs cu Hcu).
  - intros me Hme.
    eapply for_range_Forall in Hms;
      [| intros ? ? ?; apply make_merchant_fields | constructor].
    rewrite Forall_forall in Hms. exact (proj1 (Hms me Hme)).
  - intros a Ha. apply accounts_loop_fields in Hacc.
    rewrite Forall_forall in Hacc. exact (proj1 (Hacc a Ha)).
  - intros tx Hin.
    eapply for_range_Forall in Htx;
      [| intros ? ? ?; apply make_transaction_fields | constructor].
    rewrite Forall_forall in Htx. exact (proj1 (Htx tx Hin)).
Qed.

Lemma primary_keys_are_uuid4_strings_witness :
  exists d j,
    generate_sample_data demo_entropy demo_faker 1 1 1 0 = (Ok d, j) /\
    forall cu, In cu (customers d) -> is_uuid4_str (Customer.customer_id cu).
Proof.
  eexists. eexists. split; [vm_compute; reflexivity |].
  eapply (primary_keys_are_uuid4_strings demo_entropy demo_faker 1 1 1 0).
  vm_compute. reflexivity.
Defined.

(** X4. In a returned dataset every customer holds an account, so that for
    a customer of the dataset [pick_account] never falls back on
    [accounts[0]]: whatever it draws, it returns an account carrying the
    customer's id.  When the customer ids are pairwise distinct, every
    customer holds between one and three accounts. *)
Theorem every_customer_holds_accounts (entropy : nat -> N) (fake : Faker.t)
    (c m t : Z) (i : nat) (d : Dataset) (j : nat) :
  generate_sample_data entropy fake c m t i = (Ok d, j) ->
  (forall cu, In cu (customers d) ->
     accounts_of cu (accounts d) <> [] /\
     forall tape k,
       exists a,
         pick_account tape cu (accounts d) k = (Ok a, S k) /\
         In a (accounts d) /\
         Account.customer_id a = Customer.customer_id cu) /\
  (NoDup (map Customer.customer_id (customers d)) ->
   forall cu, In cu (customers d) ->
     (1 <= List.length (accounts_of cu (accounts d)) <= 3)%nat).
Proof.
  intros H. apply generate_sample_data_inv in H.
  destruct H as [_ _ _ (blocks & Heq & Hblocks) _ _]. split.
  - intros cu Hcu.
    destruct (blocks_all_hold _ _ Hblocks cu Hcu) as (a0 & Ha0).
    rewrite <- Heq in Ha0. apply accounts_of_In in Ha0.
    assert (Hne : accounts_of cu (accounts d) <> [])
      by (intros Hnil; rewrite Hnil in Ha0; contradiction).
    split; [exact Hne |]. intros tape k. unfold pick_account.
    destruct (accounts_of cu (accounts d)) as [| a1 own] eqn:Hown;
      [congruence |].
    eexists. split; [apply choice_cons_run |].
    apply accounts_of_In. rewrite Hown. apply choice_cons_In.
  - intros Hnodup cu Hcu. rewrite Heq.
    now apply (accounts_of_distinct (customers d)).
Qed.

Lemma every_customer_holds_accounts_witness :
  exists d j,
    generate_sample_data demo_entropy demo_faker 2 1 1 0 = (Ok d, j) /\
    forall cu, In cu (customers d) ->
      (1 <= List.length (accounts_of cu (accounts d)) <= 3)%nat.
Proof.
  eexists. eexists. split; [vm_compute; reflexivity |].
  eapply (every_customer_holds_accounts demo_entropy demo_faker 2 1 1 0).
  - vm_compute. reflexivity.
  - simpl. repeat constructor; simpl; intuition discriminate.
Defined.

(** X5. [generate_sample_data] returns a dataset exactly when both
    populations are positive or no transaction is asked for; otherwise, a
    transaction being asked for from an empty population, it raises the
    [IndexError] of [random.choice].  It raises nothing else. *)
Theorem generator_outcome (entropy : nat -> N) (fake : Faker.t)
    (c m t : Z) (i : nat) :
  (((0 < c /\ 0 < m) \/ t <= 0)%Z /\
   exists d j, generate_sample_data entropy fake c m t i = (Ok d, j)) \/
  (((c <= 0 \/ m <= 0) /\ 0 < t)%Z /\
   exists j,
     generate_sample_data entropy fake c m t i =
     (Raise (IndexError "Cannot choose from an empty sequence"), j)).
Proof.
  destruct (Z_lt_le_dec 0 t) as [Ht | Ht].
  - destruct (Z_lt_le_dec 0 c) as [Hc | Hc];
      [destruct (Z_lt_le_dec 0 m) as [Hm | Hm] |].
    + left. split; [lia |].
      apply generate_sample_data_succeeds. lia.
    + right. split; [lia |].
      apply generate_sample_data_raises; lia.
    + right. split; [lia |].
      apply generate_sample_data_raises; lia.
  - left. split; [lia |].
    apply generate_sample_data_succeeds. lia.
Qed.

(** * Further properties of the gateway *)

(** ** Computations that keep the session *)

Lemma session_kept_refl w : session_kept w w.
Proof. repeat split. exists []. now rewrite app_nil_r. Qed.

Lemma session_kept_trans w1 w2 w3 :
  session_kept w1 w2 -> session_kept w2 w3 -> session_kept w1 w3.
Proof.
  intros (Hc & Hp & calls & Hh) (Hc' & Hp' & calls' & Hh').
  repeat split; [congruence | congruence |].
  exists (calls ++ calls'). rewrite Hh', Hh. now rewrite app_assoc.
Qed.

Lemma keeps_session_snd {A} (m : IO A) w :
  keeps_session m -> session_kept w (snd (m w)).
Proof.
  intros H. unfold keeps_session in H. eapply H. apply surjective_pairing.
Qed.

Lemma keeps_ret {A} (a : A) : keeps_session (ret a).
Proof. intros w r w' H. injection H as _ <-. apply session_kept_refl. Qed.

Lemma keeps_raise {A} (e : exn) : keeps_session (@raise World A e).
Proof. intros w r w' H. injection H as _ <-. apply session_kept_refl. Qed.

Lemma keeps_get_connection : keeps_session get_connection.
Proof. intros w r w' H. injection H as _ <-. apply session_kept_refl. Qed.

Lemma keeps_get_connection_params : keeps_session get_connection_params.
Proof. intros w r w' H. injection H as _ <-. apply session_kept_refl. Qed.

Lemma keeps_from_driver {A} (answer : string + A) :
  keeps_session (from_driver answer).
Proof. destruct answer; [apply keeps_raise | apply keeps_ret]. Qed.

Lemma keeps_call_driver {A} (answer : list event -> string + A) ev :
  keeps_session (call_driver answer ev).
Proof.
  intros w r w' H. unfold call_driver in H.
  destruct (answer (history w)); injection H as _ <-;
    (repeat split; exists [ev]; reflexivity).
Qed.

Lemma keeps_run_gen {A} (g : Gen A) : keeps_session (run_gen g).
Proof.
  intros w r w' H. unfold run_gen in H. destruct (g (cursor w)) as [r0 k].
  injection H as _ <-. repeat split. exists []. simpl. now rewrite app_nil_r.
Qed.

Lemma keeps_bind {A B} (m : IO A) (f : A -> IO B) :
  keeps_session m -> (forall a, keeps_session (f a)) ->
  keeps_session (bind m f).
Proof.
  intros Hm Hf w r w' H. unfold bind in H.
  destruct (m w) as [[a | e] w1] eqn:Hrun.
  - eapply session_kept_trans; [eapply Hm; exact Hrun | eapply Hf; exact H].
  - injection H as _ <-. eapply Hm. exact Hrun.
Qed.

Lemma keeps_try_except {A} (m : IO A) (handler : exn -> IO A) :
  keeps_session m -> (forall e, keeps_session (handler e)) ->
  keeps_session (try_except m handler).
Proof.
  intros Hm Hh w r w' H. unfold try_except in H.
  destruct (m w) as [[a | e] w1] eqn:Hrun.
  - injection H as _ <-. eapply Hm. exact Hrun.
  - eapply session_kept_trans; [eapply Hm; exact Hrun | eapply Hh; exact H].
Qed.

Lemma keeps_iterate {A} (l : list A) (body : A -> IO unit) :
  (forall x, keeps_session (body x)) -> keeps_session (iterate l body).
Proof.
  intros Hbody. induction l as [| x l IH]; simpl.
  - apply keeps_ret.
  - apply keeps_bind; [apply Hbody | intros _; exact IH].
Qed.

Create HintDb keeps.

#[local] Hint Resolve keeps_ret keeps_raise keeps_get_connection
  keeps_get_connection_params keeps_from_driver keeps_call_driver
  keeps_run_gen : keeps.

Ltac keeps :=
  repeat first
    [ progress auto with keeps
    | apply keeps_bind
    | apply keeps_try_except
    | apply keeps_iterate
    | match goal with
      | |- forall _, _ => intro
      | |- keeps_session (match ?x with _ => _ end) => destruct x
      end ].

Section KeepsSession.

Variable entropy : nat -> N.
Variable fake : Faker.t.
Variable driver : Driver.

Lemma keeps_manager_execute_query query fetch_results :
  keeps_session (SnowflakeManager.execute_query driver query fetch_results).
Proof. unfold SnowflakeManager.execute_query. keeps. Qed.

Lemma keeps_manager_load_dataframe df table_name if_exists :
  keeps_session (SnowflakeManager.load_dataframe driver df table_name if_exists).
Proof. unfold SnowflakeManager.load_dataframe. keeps. Qed.

Lemma keeps_snowflake_status : keeps_session snowflake_status.
Proof. unfold snowflake_status. keeps. Qed.

Lemma keeps_endpoint_execute_query request :
  keeps_session (execute_query driver request).
Proof.
  unfold execute_query. keeps.
Qed.

Lemma keeps_setup_database : keeps_session (setup_database driver).
Proof.
  unfold setup_database. keeps.
Qed.

Lemma keeps_generate_data request :
  keeps_session (generate_data entropy fake driver request).
Proof.
  unfold generate_data. keeps.
Qed.

End KeepsSession.

(** ** Errors of the gateway *)

Lemma only_bad_try_except {A} (m : IO A) (detail : exn -> string) :
  only_bad_requests
    (try_except m (fun e => raise (HTTPException 400 (detail e)))).
Proof.
  intros w e w' H. unfold try_except in H.
  destruct (m w) as [[a | e0] w1]; [discriminate H |].
  injection H as <- _. now exists (detail e0).
Qed.

Lemma only_bad_guarded {A} (body : handle -> IO A) :
  (forall conn, only_bad_requests (body conn)) ->
  only_bad_requests
    (c <- get_connection ;;
     match c with
     | None => raise (HTTPException 400 "No active Snowflake connection")
     | Some conn => body conn
     end).
Proof.
  intros Hbody w e w' H. unfold bind at 1, get_connection in H.
  destruct (connection w) as [conn |].
  - eapply Hbody. exact H.
  - injection H as <- _. now eexists.
Qed.

(** ** The session across requests *)

Lemma session_kept_moves_forward w w' :
  session_kept w w' -> moves_forward w w'.
Proof.
  intros (Hc & Hp & Hh). unfold moves_forward, params_known.
  rewrite Hc, Hp. auto.
Qed.

Lemma moves_forward_trans w1 w2 w3 :
  moves_forward w1 w2 -> moves_forward w2 w3 -> moves_forward w1 w3.
Proof.
  intros (Hc & Hp & calls & Hh) (Hc' & Hp' & calls' & Hh').
  repeat split; [auto | auto |].
  exists (calls ++ calls'). rewrite Hh', Hh. now rewrite app_assoc.
Qed.

Section Sessions.

Variable entropy : nat -> N.
Variable fake : Faker.t.
Variable driver : Driver.

(** The state after [connect], accepted or not. *)
Lemma manager_connect_run params w :
  SnowflakeManager.connect driver params w =
  match connector_connect driver (history w) params with
  | inr conn =>
      (Ok true,
       mkWorld (Some conn) (Some params) (history w ++ [Connect params])
               (cursor w))
  | inl msg =>
      (Raise (HTTPException 400 ("Snowflake connection failed: " ++ msg)),
       mkWorld (connection w) (Some params) (history w ++ [Connect params])
               (cursor w))
  end.
Proof.
  unfold SnowflakeManager.connect, try_except, bind, set_connection_params,
    call_driver, set_connection, ret, raise.
  simpl. destruct (connector_connect driver (history w) params); reflexivity.
Qed.

Lemma connect_snowflake_world params w :
  snd (connect_snowflake driver params w) =
  snd (SnowflakeManager.connect driver params w).
Proof.
  unfold connect_snowflake, try_except, bind.
  rewrite manager_connect_run.
  destruct (connector_connect driver (history w) params); reflexivity.
Qed.

Lemma connect_moves_forward params w :
  moves_forward w (snd (SnowflakeManager.connect driver params w)).
Proof.
  rewrite manager_connect_run. unfold moves_forward, params_known.
  destruct (connector_connect driver (history w) params); simpl;
    (repeat split; [try discriminate; auto | discriminate | now eexists]).
Qed.

Lemma keeps_serve rq :
  (forall body, rq <> PostConnect body) ->
  keeps_session (serve entropy fake driver rq).
Proof.
  intros Hrq. destruct rq as [| body | | | body | body |]; cbn [serve].
  - unfold root. keeps.
  - now contradiction (Hrq body).
  - apply keeps_bind; [apply keeps_snowflake_status | keeps].
  - apply keeps_bind; [apply keeps_setup_database | keeps].
  - apply keeps_bind; [apply keeps_generate_data | keeps].
  - apply keeps_bind; [apply keeps_endpoint_execute_query | keeps].
  - unfold get_example_queries. keeps.
Qed.

Lemma serve_moves_forward rq w :
  moves_forward w (snd (serve entropy fake driver rq w)).
Proof.
  destruct rq as [| body | | | body | body |];
    try (apply session_kept_moves_forward, keeps_session_snd, keeps_serve;
         discriminate).
  cbn [serve]. unfold bind.
  pose proof (connect_snowflake_world body w) as Hw.
  destruct (connect_snowflake driver body w) as [[r | e] w1]; simpl in *;
    rewrite Hw; apply connect_moves_forward.
Qed.

Lemma serve_all_moves_forward rqs :
  forall w, moves_forward w (serve_all entropy fake driver rqs w).
Proof.
  induction rqs as [| rq rqs IH]; intros w; simpl.
  - apply session_kept_moves_forward, session_kept_refl.
  - eapply moves_forward_trans; [apply serve_moves_forward | apply IH].
Qed.

Lemma snowflake_status_total w :
  params_known w -> exists r, snowflake_status w = (Ok r, w).
Proof.
  intros Hknown. unfold snowflake_status, bind, get_connection,
    get_connection_params.
  destruct (connection w) as [conn |] eqn:Hc.
  - destruct (connection_params w) as [p |] eqn:Hp.
    + eexists. reflexivity.
    + exfalso. apply Hknown; [rewrite Hc; discriminate | exact Hp].
  - eexists. reflexivity.
Qed.

End Sessions.

(** X6. A [connect] that the driver accepts stores the new session and the
    parameters, whatever was stored before, and has made one call to the
    driver; the connect endpoint then answers "connected" and the status
    endpoint reports the database of the new parameters. *)
Theorem accepted_connect_replaces_session (driver : Driver) (w : World)
    (params : SnowflakeConnection.t) (conn : handle) :
  connector_connect driver (history w) params = inr conn ->
  let w' := mkWorld (Some conn) (Some params) (history w ++ [Connect params])
                    (cursor w) in
  SnowflakeManager.connect driver params w = (Ok true, w') /\
  connect_snowflake driver params w =
    (Ok (Some ("Successfully connected to Snowflake", "connected")), w') /\
  snowflake_status w' =
    (Ok (StatusConnected (SnowflakeConnection.database params)), w').
Proof.
  intros Hdriver w'.
  assert (Hrun : SnowflakeManager.connect driver params w = (Ok true, w'))
    by (rewrite manager_connect_run, Hdriver; reflexivity).
  split; [exact Hrun |]. split.
  - unfold connect_snowflake, try_except, bind. rewrite Hrun. reflexivity.
  - reflexivity.
Qed.

Lemma accepted_connect_replaces_session_witness :
  SnowflakeManager.connect demo_driver demo_params connected_world =
  (Ok true,
   mkWorld (Some 2%nat) (Some demo_params)
           [Connect demo_params; Connect demo_params] 0).
Proof.
  apply (accepted_connect_replaces_session demo_driver connected_world
           demo_params 2%nat).
  reflexivity.
Defined.

(** X7. Whatever the driver and the requests are, the only exceptions that
    leave the three methods of [SnowflakeManager] and the connect, execute,
    generate and setup endpoints are HTTP 400 errors. *)
Theorem gateway_errors_are_bad_requests (entropy : nat -> N) (fake : Faker.t)
    (driver : Driver) :
  (forall params, only_bad_requests (SnowflakeManager.connect driver params)) /\
  (forall query fetch_results,
     only_bad_requests
       (SnowflakeManager.execute_query driver query fetch_results)) /\
  (forall df table_name if_exists,
     only_bad_requests
       (SnowflakeManager.load_dataframe driver df table_name if_exists)) /\
  (forall body, only_bad_requests (connect_snowflake driver body)) /\
  (forall body, only_bad_requests (execute_query driver body)) /\
  (forall body, only_bad_requests (generate_data entropy fake driver body)) /\
  only_bad_requests (setup_database driver).
Proof.
  repeat split; intros;
    first [ apply only_bad_try_except
          | apply only_bad_guarded; intros; apply only_bad_try_except ].
Qed.

(** X8. Without a connection the execute, generate and setup endpoints
    raise the HTTP 400 error "No active Snowflake connection" and change
    nothing: no entropy is drawn and the driver receives no call.  The
    status endpoint answers "disconnected". *)
Theorem disconnected_endpoints_reject (entropy : nat -> N) (fake : Faker.t)
    (driver : Driver) (w : World) :
  connection w = None ->
  (forall body,
     execute_query driver body w =
     (Raise (HTTPException 400 "No active Snowflake connection"), w)) /\
  (forall body,
     generate_data entropy fake driver body w =
     (Raise (HTTPException 400 "No active Snowflake connection"), w)) /\
  setup_database driver w =
    (Raise (HTTPException 400 "No active Snowflake connection"), w) /\
  snowflake_status w = (Ok StatusDisconnected, w).
Proof.
  intros Hconn.
  unfold execute_query, generate_data, setup_database, snowflake_status,
    bind, get_connection.
  rewrite Hconn. repeat split.
Qed.

Lemma disconnected_endpoints_reject_witness :
  generate_data demo_entropy demo_faker demo_driver
                (DataGenerationRequest.mk 10 5 100) initial_world =
  (Raise (HTTPException 400 "No active Snowflake connection"), initial_world).
Proof.
  apply (disconnected_endpoints_reject demo_entropy demo_faker demo_driver
           initial_world eq_refl).
Defined.

(** X9. Over any sequence of requests the process state only moves
    forward: a stored session is never dropped, and the calls received by
    the driver are kept.  In every state reached from a fresh process the
    status endpoint answers without raising. *)
Theorem session_never_dropped (entropy : nat -> N) (fake : Faker.t)
    (driver : Driver) (rqs : list request) :
  (forall w, moves_forward w (serve_all entropy fake driver rqs w)) /\
  (exists r,
     snowflake_status (serve_all entropy fake driver rqs initial_world) =
     (Ok r, serve_all entropy fake driver rqs initial_world)).
Proof.
  split.
  - apply serve_all_moves_forward.
  - apply snowflake_status_total.
    destruct (serve_all_moves_forward entropy fake driver rqs initial_world)
      as (_ & Hknown & _).
    apply Hknown. intros Hc. now contradiction Hc.
Qed.

(** X10. A request other than a connect keeps the stored session and its
    parameters as they are, whether it succeeds or raises; the driver has
    only received more calls. *)
Theorem only_connect_changes_session (entropy : nat -> N) (fake : Faker.t)
    (driver : Driver) (rq : request) (w : World) :
  (forall body, rq <> PostConnect body) ->
  session_kept w (snd (serve entropy fake driver rq w)).
Proof.
  intros Hrq. apply keeps_session_snd, keeps_serve. exact Hrq.
Qed.

Lemma only_connect_changes_session_witness :
  session_kept connected_world
    (snd (serve demo_entropy demo_faker demo_driver
                (PostExecute (QueryRequest.mk "SELECT 1" None))
                connected_world)).
Proof.
  apply only_connect_changes_session. discriminate.
Defined.

(** * Further properties of the query rewriting *)

(** ** Occurrences *)

Lemma prefix_app sub after : String.prefix sub (sub ++ after) = true.
Proof.
  induction sub as [| c sub IH]; simpl.
  - destruct after; reflexivity.
  - destruct (ascii_dec c c) as [_ | Hne]; [exact IH | now contradiction Hne].
Qed.

Lemma prefix_split sub s :
  String.prefix sub s = true -> exists after, s = (sub ++ after)%string.
Proof.
  revert s. induction sub as [| c sub IH]; intros s H.
  - now exists s.
  - destruct s as [| c' s]; [discriminate H |]. simpl in H.
    destruct (ascii_dec c c') as [<- | _]; [| discriminate H].
    destruct (IH s H) as (after & ->). now exists after.
Qed.

Lemma count_from_occurs sub s :
  sub <> EmptyString -> occurs sub s -> (1 <= count_from sub s 0)%nat.
Proof.
  intros Hsub (before & after & ->).
  induction before as [| c before IH].
  - destruct sub as [| c sub]; [congruence |].
    change (("" ++ String c sub ++ after)%string)
      with (String c (sub ++ after)).
    cbn [count_from].
    change (String c (sub ++ after)) with ((String c sub ++ after)%string).
    rewrite prefix_app. lia.
  - change ((String c before ++ sub ++ after)%string)
      with (String c (before ++ sub ++ after)).
    cbn [count_from].
    destruct (String.prefix sub (String c (before ++ sub ++ after)));
      [lia | exact IH].
Qed.

Lemma occurs_count_from sub s :
  forall skip, (1 <= count_from sub s skip)%nat -> occurs sub s.
Proof.
  induction s as [| c s IH]; intros skip H; cbn [count_from] in H.
  - lia.
  - destruct skip as [| k].
    + destruct (String.prefix sub (String c s)) eqn:Hp.
      * destruct (prefix_split _ _ Hp) as (after & Heq).
        exists EmptyString, after. exact Heq.
      * destruct (IH _ H) as (before & after & ->).
        now exists (String c before), after.
    + destruct (IH _ H) as (before & after & ->).
      now exists (String c before), after.
Qed.

Lemma count_LIMIT_occurs s :
  count s "LIMIT" <> O <-> occurs "LIMIT" s.
Proof.
  unfold count. split.
  - intros H. apply (occurs_count_from "LIMIT" s O). lia.
  - intros H. pose proof (count_from_occurs "LIMIT" s) as Hc.
    assert (1 <= count_from "LIMIT" s 0)%nat by (apply Hc; [discriminate | exact H]).
    lia.
Qed.

Lemma append_assoc (a b c : string) :
  ((a ++ b) ++ c = a ++ (b ++ c))%string.
Proof.
  induction a as [| x a IH]; simpl; [reflexivity | now rewrite IH].
Qed.

Lemma upper_app a b : upper (a ++ b) = (upper a ++ upper b)%string.
Proof.
  induction a as [| c a IH]; simpl; [reflexivity | now rewrite IH].
Qed.

Lemma lstrip_blank s : blank s = true -> lstrip s = EmptyString.
Proof.
  induction s as [| c s IH]; simpl; [reflexivity |].
  intros H. apply andb_prop in H. destruct H as [Hc Hs].
  rewrite Hc. now apply IH.
Qed.

Lemma limited_query_appends text n :
  n <> 0%Z ->
  count (upper (strip text)) "LIMIT" = O ->
  limited_query (QueryRequest.mk text (Some n)) =
  (strip text ++ " LIMIT " ++ str_int n)%string.
Proof.
  intros Hn Hcount. unfold limited_query.
  cbn [QueryRequest.sql_query QueryRequest.limit].
  rewrite Hcount. destruct (Z.eqb_spec n 0); [contradiction | reflexivity].
Qed.

Lemma limited_query_keeps text n :
  count (upper (strip text)) "LIMIT" <> O ->
  limited_query (QueryRequest.mk text (Some n)) = strip text.
Proof.
  intros Hcount. unfold limited_query.
  cbn [QueryRequest.sql_query QueryRequest.limit].
  destruct (Nat.eqb_spec (count (upper (strip text)) "LIMIT") 0);
    [contradiction |].
  rewrite andb_false_r. reflexivity.
Qed.

Lemma limited_query_with_appends py text n :
  n <> 0%Z ->
  count (py_upper py (py_strip py text)) "LIMIT" = O ->
  limited_query_with py (QueryRequest.mk text (Some n)) =
  (py_strip py text ++ " LIMIT " ++ str_int n)%string.
Proof.
  intros Hn Hcount. unfold limited_query_with.
  cbn [QueryRequest.sql_query QueryRequest.limit].
  rewrite Hcount. destruct (Z.eqb_spec n 0); [contradiction | reflexivity].
Qed.

Lemma limited_query_with_keeps py text n :
  count (py_upper py (py_strip py text)) "LIMIT" <> O ->
  limited_query_with py (QueryRequest.mk text (Some n)) = py_strip py text.
Proof.
  intros Hcount. unfold limited_query_with.
  cbn [QueryRequest.sql_query QueryRequest.limit].
  destruct (Nat.eqb_spec (count (py_upper py (py_strip py text)) "LIMIT") 0);
    [contradiction |].
  rewrite andb_false_r. reflexivity.
Qed.

(** X11. With a limit that is not zero, the execute endpoint adds the
    clause [" LIMIT n"] exactly when the letters [LIMIT] do not occur, one
    after the other, in the upper-cased stripped text.  It adds nothing as
    soon as they occur anywhere in it, be it inside a name, a literal or a
    comment; and when it adds the clause the text handed to the gateway
    ends with it.  This holds whatever [str.strip] and [str.upper]
    compute. *)
Theorem limit_keyword_rule (py : StrMethods) (text : string) (n : Z) :
  n <> 0%Z ->
  (occurs "LIMIT" (py_upper py (py_strip py text)) /\
   limited_query_with py (QueryRequest.mk text (Some n)) = py_strip py text) \/
  (~ occurs "LIMIT" (py_upper py (py_strip py text)) /\
   limited_query_with py (QueryRequest.mk text (Some n)) =
   (py_strip py text ++ " LIMIT " ++ str_int n)%string /\
   occurs "LIMIT" (limited_query_with py (QueryRequest.mk text (Some n)))).
Proof.
  intros Hn.
  destruct (Nat.eq_dec (count (py_upper py (py_strip py text)) "LIMIT") 0)
    as [H0 | Hpos].
  - right. split; [| split].
    + intros Hocc. apply count_LIMIT_occurs in Hocc. contradiction.
    + now apply limited_query_with_appends.
    + rewrite (limited_query_with_appends py text n Hn H0).
      exists (py_strip py text ++ " ")%string, (" " ++ str_int n)%string.
      rewrite !append_assoc. reflexivity.
  - left. split.
    + now apply count_LIMIT_occurs.
    + now apply limited_query_with_keeps.
Qed.

Lemma limit_keyword_rule_witness :
  (occurs "LIMIT" "SELECT CREDIT_LIMIT FROM ACCOUNTS" /\
   limited_query_with ascii_methods
     (QueryRequest.mk "SELECT credit_limit FROM accounts" (Some 1000%Z)) =
   "SELECT credit_limit FROM accounts") \/
  (~ occurs "LIMIT" "SELECT CREDIT_LIMIT FROM ACCOUNTS" /\
   limited_query_with ascii_methods
     (QueryRequest.mk "SELECT credit_limit FROM accounts" (Some 1000%Z)) =
   "SELECT credit_limit FROM accounts LIMIT 1000" /\
   occurs "LIMIT"
     (limited_query_with ascii_methods
        (QueryRequest.mk "SELECT credit_limit FROM accounts" (Some 1000%Z)))).
Proof.
  apply (limit_keyword_rule ascii_methods "SELECT credit_limit FROM accounts"
           1000).
  discriminate.
Defined.

(** X12. A text made of white space only is not rejected: on a connected
    gateway the execute endpoint hands the driver the empty string when the
    request has no limit, and [" LIMIT n"] when it has the limit [n]. *)
Theorem blank_query_is_forwarded (driver : Driver) (w : World) (conn : handle)
    (text : string) :
  connection w = Some conn ->
  blank text = true ->
  history (snd (execute_query driver (QueryRequest.mk text None) w)) =
    history w ++ [CursorExecute conn ""] /\
  (forall n, n <> 0%Z ->
     history (snd (execute_query driver (QueryRequest.mk text (Some n)) w)) =
     history w ++ [CursorExecute conn (" LIMIT " ++ str_int n)]).
Proof.
  intros Hconn Hblank.
  assert (Hstrip : strip text = EmptyString)
    by (unfold strip; rewrite (lstrip_blank text Hblank); reflexivity).
  split.
  - destruct (endpoint_execute_query_run driver w conn
                (QueryRequest.mk text None) Hconn) as (r & ->).
    unfold limited_query. cbn [QueryRequest.sql_query QueryRequest.limit].
    rewrite Hstrip. reflexivity.
  - intros n Hn.
    destruct (endpoint_execute_query_run driver w conn
                (QueryRequest.mk text (Some n)) Hconn) as (r & ->).
    rewrite limited_query_appends; [| exact Hn | rewrite Hstrip; reflexivity].
    rewrite Hstrip. reflexivity.
Qed.

Lemma blank_query_is_forwarded_witness :
  history (snd (execute_query demo_driver (QueryRequest.mk "   " None)
                              connected_world)) =
  history connected_world ++ [CursorExecute 1 ""].
Proof.
  destruct (blank_query_is_forwarded demo_driver connected_world 1 "   "
              eq_refl eq_refl) as [Hnone _].
  exact Hnone.
Defined.

(** X13. Every query of the example catalogue ends with a semicolon, and
    all but "Top Spending Customers", which has a [LIMIT] of its own, reach
    the gateway through the execute endpoint with the clause [" LIMIT n"]
    placed after that semicolon, for every limit [n] that is not zero. *)
Theorem catalogue_queries_get_limit_after_semicolon (n : Z) (ex : ExampleQuery.t) :
  n <> 0%Z ->
  In ex examples ->
  (exists body, ExampleQuery.query ex = (body ++ ";")%string) /\
  (ExampleQuery.title ex <> "Top Spending Customers" ->
   limited_query (QueryRequest.mk (ExampleQuery.query ex) (Some n)) =
   (ExampleQuery.query ex ++ " LIMIT " ++ str_int n)%string) /\
  (ExampleQuery.title ex = "Top Spending Customers" ->
   limited_query (QueryRequest.mk (ExampleQuery.query ex) (Some n)) =
   ExampleQuery.query ex).
Proof.
  intros Hn Hin. unfold examples in Hin. simpl in Hin.
  repeat (destruct Hin as [<- | Hin]); [.. | contradiction];
    cbn [ExampleQuery.query ExampleQuery.title];
    (split;
       [match goal with
        | |- exists body, ?q = _ =>
            exists (substring 0 (String.length q - 1) q);
            vm_compute; reflexivity
        end |]);
    (split; intros Htitle; try discriminate Htitle;
     try (now contradiction Htitle)).
  all: try (rewrite limited_query_appends;
            [reflexivity | exact Hn | vm_compute; reflexivity]).
  rewrite limited_query_keeps; [reflexivity | vm_compute; discriminate].
Qed.

Lemma catalogue_queries_get_limit_after_semicolon_witness :
  limited_query
    (QueryRequest.mk
       "SELECT * FROM transactions WHERE customer_id = 'CUSTOMER_ID_HERE' ORDER BY transaction_date DESC;"
       (Some 1000%Z)) =
  "SELECT * FROM transactions WHERE customer_id = 'CUSTOMER_ID_HERE' ORDER BY transaction_date DESC; LIMIT 1000".
Proof.
  apply (catalogue_queries_get_limit_after_semicolon 1000
           (ExampleQuery.mk
              "Basic Transaction Query"
              "Get all transactions for a specific customer"
              "SELECT * FROM transactions WHERE customer_id = 'CUSTOMER_ID_HERE' ORDER BY transaction_date DESC;")).
  - discriminate.
  - simpl. left. reflexivity.
  - discriminate.
Defined.

(** * Further properties of the setup and generate endpoints *)

Section Batches.

Variable entropy : nat -> N.
Variable fake : Faker.t.
Variable driver : Driver.

(** One statement run without fetching. *)
Lemma execute_statement_run w conn query :
  connection w = Some conn ->
  SnowflakeManager.execute_query driver query false w =
  (match cursor_execute driver (history w) conn query with
   | inr _ => Ok (QueryMessage "Query executed successfully")
   | inl msg => Raise (HTTPException 400 ("Query failed: " ++ msg))
   end,
   mkWorld (connection w) (connection_params w)
           (history w ++ [CursorExecute conn query]) (cursor w)).
Proof.
  intros Hconn. destruct w as [c p past k]. simpl in Hconn. subst c.
  unfold SnowflakeManager.execute_query, bind at 1, get_connection. simpl.
  unfold try_except, bind, call_driver. simpl.
  destruct (cursor_execute driver past conn query); reflexivity.
Qed.

(** One bulk load. *)
Lemma load_dataframe_run w conn df table_name if_exists :
  connection w = Some conn ->
  SnowflakeManager.load_dataframe driver df table_name if_exists w =
  (match write_pandas driver (history w) conn df table_name if_exists true with
   | inr (ok, nchunks, nrows) => Ok (mkLoadReply ok nchunks nrows)
   | inl msg => Raise (HTTPException 400 ("Data load failed: " ++ msg))
   end,
   mkWorld (connection w) (connection_params w)
           (history w ++ [WritePandas conn df table_name if_exists true])
           (cursor w)).
Proof.
  intros Hconn. destruct w as [c p past k]. simpl in Hconn. subst c.
  unfold SnowflakeManager.load_dataframe, bind at 1, get_connection. simpl.
  unfold try_except, bind, call_driver. simpl.
  destruct (write_pandas driver past conn df table_name if_exists true)
    as [msg | [[ok nchunks] nrows]]; reflexivity.
Qed.

End Batches.

Section Statements.

Variable driver : Driver.
Variable conn : handle.

Lemma statement_answer_first past q qs :
  statement_answer driver conn past (q :: qs) 0 =
  cursor_execute driver past conn q.
Proof. unfold statement_answer. simpl. now rewrite app_nil_r. Qed.

Lemma statement_answer_next past q qs i :
  statement_answer driver conn past (q :: qs) (S i) =
  statement_answer driver conn (past ++ [CursorExecute conn q]) qs i.
Proof. unfold statement_answer. simpl. now rewrite <- app_assoc. Qed.

(** The statements loop: the statements are sent in order as long as the
    driver accepts them; the loop ends after the last one, or raises at the
    first one that the driver rejects. *)
Lemma statements_loop_exact qs :
  forall w,
    connection w = Some conn ->
    exists k r,
      iterate qs
        (fun query =>
           _ <- SnowflakeManager.execute_query driver query false ;; ret tt) w =
      (r, mkWorld (connection w) (connection_params w)
                  (history w ++ map (CursorExecute conn) (firstn k qs))
                  (cursor w)) /\
      (k <= List.length qs)%nat /\
      (forall i, (S i < k)%nat ->
         exists cur, statement_answer driver conn (history w) qs i = inr cur) /\
      ((r = Ok tt /\ k = List.length qs /\
        forall i, (i < k)%nat ->
          exists cur, statement_answer driver conn (history w) qs i = inr cur) \/
       ((1 <= k)%nat /\
        exists msg,
          statement_answer driver conn (history w) qs (k - 1) = inl msg /\
          r = Raise (HTTPException 400 ("Query failed: " ++ msg)))).
Proof.
  induction qs as [| q qs IH]; intros w Hconn.
  - exists O, (Ok tt). simpl. rewrite app_nil_r. destruct w.
    split; [reflexivity |]. split; [lia |]. split; [intros i Hi; lia |].
    left. split; [reflexivity |]. split; [reflexivity | intros i Hi; lia].
  - cbn [iterate]. unfold bind at 1, bind at 1.
    rewrite (execute_statement_run driver w conn q Hconn).
    destruct (cursor_execute driver (history w) conn q) as [msg | cur] eqn:Hq.
    + exists 1%nat. eexists. simpl. split; [reflexivity |].
      split; [lia |]. split; [intros i Hi; lia |].
      right. split; [lia |]. exists msg. simpl.
      rewrite statement_answer_first. split; [exact Hq | reflexivity].
    + cbn [ret].
      destruct (IH (mkWorld (connection w) (connection_params w)
                            (history w ++ [CursorExecute conn q]) (cursor w))
                   Hconn)
        as (k & r & Hrun & Hk & Hacc & Hend).
      simpl in Hrun, Hacc, Hend.
      exists (S k), r.
      split; [simpl; rewrite Hrun, <- app_assoc; reflexivity |].
      split; [simpl; lia |]. split.
      * intros i Hi. destruct i as [| i].
        -- rewrite statement_answer_first. now exists cur.
        -- rewrite statement_answer_next. apply Hacc. lia.
      * destruct Hend as [(Hr & Hlen & Hall) | (Hk1 & msg & Hrej & Hr)].
        -- left. split; [exact Hr |]. split; [simpl; lia |].
           intros i Hi. destruct i as [| i].
           ++ rewrite statement_answer_first. now exists cur.
           ++ rewrite statement_answer_next. apply Hall. lia.
        -- right. split; [lia |]. exists msg. split; [| exact Hr].
           destruct k as [| k']; [lia |].
           replace (S (S k') - 1)%nat with (S k') by lia.
           rewrite statement_answer_next.
           replace (S k' - 1)%nat with k' in Hrej by lia.
           exact Hrej.
Qed.

End Statements.

(** X14. On a connected gateway the setup endpoint hands the driver the
    statements of [setup_queries] as they are written, in order, for as
    long as the driver accepts them.  If the driver accepts all ten, all
    ten are sent and the endpoint answers with the counts 4 and 2, which
    are the numbers of [CREATE OR REPLACE TABLE] and [CREATE OR REPLACE
    VIEW] statements.  Otherwise the statements up to the first one that
    the driver rejects are sent, none after it, and the endpoint raises an
    HTTP 400 error. *)
Theorem setup_sends_statements_in_order (driver : Driver) (w : World)
    (conn : handle) :
  connection w = Some conn ->
  exists k r w',
    setup_database driver w = (r, w') /\
    history w' =
      history w ++ map (CursorExecute conn) (firstn k setup_queries) /\
    (1 <= k <= 10)%nat /\
    (forall i, (S i < k)%nat ->
       exists cur,
         statement_answer driver conn (history w) setup_queries i = inr cur) /\
    ((k = 10%nat /\
      (exists cur,
         statement_answer driver conn (history w) setup_queries 9 = inr cur) /\
      r = Ok (SetupReply.mk "Database schema created successfully" 4 2) /\
      List.length (filter (String.prefix "CREATE OR REPLACE TABLE")
                          setup_queries) = 4%nat /\
      List.length (filter (String.prefix "CREATE OR REPLACE VIEW")
                          setup_queries) = 2%nat) \/
     (exists msg detail,
        statement_answer driver conn (history w) setup_queries (k - 1) =
          inl msg /\
        r = Raise (HTTPException 400 detail))).
Proof.
  intros Hconn.
  destruct (statements_loop_exact driver conn setup_queries w Hconn)
    as (k & r & Hrun & Hk & Hacc & Hend).
  change (List.length setup_queries) with 10%nat in *.
  unfold setup_database, bind at 1, get_connection. rewrite Hconn.
  unfold try_except, bind at 1. rewrite Hrun.
  destruct Hend as [(-> & -> & Hall) | (Hk1 & msg & Hrej & ->)].
  - exists 10%nat. eexists. eexists. split; [reflexivity |]. simpl history.
    split; [reflexivity |]. split; [lia |]. split; [exact Hacc |].
    left. split; [reflexivity |]. split; [apply Hall; lia |].
    split; [reflexivity |]. split; reflexivity.
  - exists k. eexists. eexists. split; [reflexivity |]. simpl history.
    split; [reflexivity |]. split; [lia |]. split; [exact Hacc |].
    right. exists msg. eexists. split; [exact Hrej | reflexivity].
Qed.

Lemma setup_sends_statements_in_order_witness :
  exists w',
    setup_database demo_driver connected_world =
      (Ok (SetupReply.mk "Database schema created successfully" 4 2), w') /\
    history w' =
      history connected_world ++ map (CursorExecute 1) setup_queries.
Proof.
  destruct (setup_sends_statements_in_order demo_driver connected_world 1
              eq_refl)
    as (k & r & w' & Hrun & Hhist & _ & _
        & [(-> & _ & -> & _) | (msg & detail & Hrej & _)]).
  - exists w'. split; [exact Hrun | exact Hhist].
  - discriminate Hrej.
Defined.

(** X15. On a connected gateway, when the generator returns a dataset, the
    generate endpoint loads the customers, the merchants, the accounts and
    the transactions in this order, each with the mode "replace" and table
    creation enabled, for as long as the driver accepts the loads.  If the
    driver accepts the four loads, the endpoint answers with the sizes of
    the four lists and with the driver's result for each table.  Otherwise
    the loads up to the first one that the driver rejects are made, none
    after it, the loads made before it are not undone, and the endpoint
    raises an HTTP 400 error. *)
Theorem generate_loads_tables_in_order (entropy : nat -> N) (fake : Faker.t)
    (driver : Driver) (w : World) (conn : handle) (c m t : Z) (d : Dataset)
    (j : nat) :
  connection w = Some conn ->
  generate_sample_data entropy fake c m t (cursor w) = (Ok d, j) ->
  exists k r w',
    generate_data entropy fake driver (DataGenerationRequest.mk c m t) w =
      (r, w') /\
    history w' = history w ++ firstn k (load_events conn d) /\
    (1 <= k <= 4)%nat /\
    cursor w' = j /\
    (forall i, (S i < k)%nat ->
       exists res,
         load_answer driver (history w) (load_events conn d) i = inr res) /\
    ((k = 4%nat /\
      exists r0 r1 r2 r3,
        load_answer driver (history w) (load_events conn d) 0 =
          inr (success r0, chunks r0, rows r0) /\
        load_answer driver (history w) (load_events conn d) 1 =
          inr (success r1, chunks r1, rows r1) /\
        load_answer driver (history w) (load_events conn d) 2 =
          inr (success r2, chunks r2, rows r2) /\
        load_answer driver (history w) (load_events conn d) 3 =
          inr (success r3, chunks r3, rows r3) /\
        r = Ok (mkGenerateReply
                  "Sample data generated and loaded successfully"
                  (mkDataCounts (List.length (customers d))
                                (List.length (merchants d))
                                (List.length (accounts d))
                                (List.length (transactions d)))
                  [("customers", r0); ("merchants", r1); ("accounts", r2);
                   ("transactions", r3)])) \/
     (exists msg detail,
        load_answer driver (history w) (load_events conn d) (k - 1) = inl msg /\
        r = Raise (HTTPException 400 detail))).
Proof.
  intros Hconn Hgen. destruct w as [c0 p past i0]. simpl in Hconn, Hgen. subst c0.
  unfold generate_data, bind at 1, get_connection. simpl.
  unfold try_except, bind at 1, run_gen. simpl. rewrite Hgen.
  unfold bind at 1. rewrite load_dataframe_run with (conn := conn);
    [| reflexivity].
  cbn [history connection connection_params cursor].
  assert (H0 : load_answer driver past (load_events conn d) 0 =
               write_pandas driver past conn (map customer_row (customers d))
                            "customers" "replace" true)
    by (unfold load_answer; simpl; now rewrite app_nil_r).
  assert (H1 : load_answer driver past (load_events conn d) 1 =
               write_pandas driver
                 (past ++ [WritePandas conn (map customer_row (customers d))
                                       "customers" "replace" true])
                 conn (map merchant_row (merchants d)) "merchants" "replace"
                 true)
    by reflexivity.
  assert (H2 : load_answer driver past (load_events conn d) 2 =
               write_pandas driver
                 ((past ++ [WritePandas conn (map customer_row (customers d))
                                        "customers" "replace" true]) ++
                  [WritePandas conn (map merchant_row (merchants d))
                               "merchants" "replace" true])
                 conn (map account_row (accounts d)) "accounts" "replace" true)
    by (unfold load_answer; simpl; now rewrite <- app_assoc).
  assert (H3 : load_answer driver past (load_events conn d) 3 =
               write_pandas driver
                 (((past ++ [WritePandas conn (map customer_row (customers d))
                                         "customers" "replace" true]) ++
                   [WritePandas conn (map merchant_row (merchants d))
                                "merchants" "replace" true]) ++
                  [WritePandas conn (map account_row (accounts d))
                               "accounts" "replace" true])
                 conn (map transaction_row (transactions d)) "transactions"
                 "replace" true)
    by (unfold load_answer; simpl; now rewrite <- !app_assoc).
  destruct (write_pandas driver past conn _ "customers" "replace" true)
    as [msg0 | [[ok0 ch0] n0]] eqn:E0.
  { exists 1%nat. eexists. eexists. split; [reflexivity |].
    cbn [history cursor firstn load_events].
    split; [reflexivity |]. split; [lia |]. split; [reflexivity |].
    split; [intros i Hi; lia |].
    right. exists msg0. eexists. split; [exact H0 | reflexivity]. }
  unfold bind at 1. rewrite load_dataframe_run with (conn := conn);
    [| reflexivity].
  cbn [history connection connection_params cursor].
  destruct (write_pandas driver _ conn _ "merchants" "replace" true)
    as [msg1 | [[ok1 ch1] n1]] eqn:E1.
  { exists 2%nat. eexists. eexists. split; [reflexivity |].
    cbn [history cursor firstn load_events].
    split; [now rewrite <- app_assoc |]. split; [lia |].
    split; [reflexivity |]. split.
    - intros i Hi. assert (i = O) by lia. subst i. eexists. exact H0.
    - right. exists msg1. eexists. split; [exact H1 | reflexivity]. }
  unfold bind at 1. rewrite load_dataframe_run with (conn := conn);
    [| reflexivity].
  cbn [history connection connection_params cursor].
  destruct (write_pandas driver _ conn _ "accounts" "replace" true)
    as [msg2 | [[ok2 ch2] n2]] eqn:E2.
  { exists 3%nat. eexists. eexists. split; [reflexivity |].
    cbn [history cursor firstn load_events].
    split; [now rewrite <- !app_assoc |]. split; [lia |].
    split; [reflexivity |]. split.
    - intros i Hi. destruct i as [| [| i]]; [| | lia]; eexists; eassumption.
    - right. exists msg2. eexists. split; [exact H2 | reflexivity]. }
  unfold bind at 1. rewrite load_dataframe_run with (conn := conn);
    [| reflexivity].
  cbn [history connection connection_params cursor].
  destruct (write_pandas driver _ conn _ "transactions" "replace" true)
    as [msg3 | [[ok3 ch3] n3]] eqn:E3.
  { exists 4%nat. eexists. eexists. split; [reflexivity |].
    cbn [history cursor firstn load_events].
    split; [now rewrite <- !app_assoc |]. split; [lia |].
    split; [reflexivity |]. split.
    - intros i Hi. destruct i as [| [| [| i]]]; [| | | lia];
        eexists; eassumption.
    - right. exists msg3. eexists. split; [exact H3 | reflexivity]. }
  exists 4%nat. eexists. eexists. split; [reflexivity |].
  cbn [history cursor firstn load_events].
  split; [now rewrite <- !app_assoc |]. split; [lia |].
  split; [reflexivity |]. split.
  - intros i Hi. destruct i as [| [| [| i]]]; [| | | lia];
      eexists; eassumption.
  - left. split; [reflexivity |].
    exists (mkLoadReply ok0 ch0 n0), (mkLoadReply ok1 ch1 n1),
      (mkLoadReply ok2 ch2 n2), (mkLoadReply ok3 ch3 n3).
    cbn [success chunks rows]. repeat (split; [assumption |]). reflexivity.
Qed.

Lemma generate_loads_tables_in_order_witness :
  exists d j reply w',
    generate_sample_data demo_entropy demo_faker 1 1 1 0 = (Ok d, j) /\
    generate_data demo_entropy demo_faker demo_driver
                  (DataGenerationRequest.mk 1 1 1) connected_world =
      (Ok reply, w') /\
    history w' = history connected_world ++ load_events 1 d /\
    count_customers (data_counts reply) = List.length (customers d) /\
    map fst (load_results reply) =
      ["customers"; "merchants"; "accounts"; "transactions"].
Proof.
  destruct (generate_sample_data demo_entropy demo_faker 1 1 1 0)
    as [[d | e] j] eqn:Hgen;
    [| exfalso; revert Hgen; vm_compute; discriminate].
  destruct (generate_loads_tables_in_order demo_entropy demo_faker demo_driver
              connected_world 1 1 1 1 d j eq_refl Hgen)
    as (k & r & w' & Hrun & Hhist & Hk & _ & _
        & [(-> & r0 & r1 & r2 & r3 & _ & _ & _ & _ & ->)
          | (msg & detail & Hrej & _)]).
  - exists d, j. eexists. exists w'.
    split; [reflexivity |]. split; [exact Hrun |]. split; [exact Hhist |].
    split; reflexivity.
  - exfalso. destruct k as [| [| [| [| [| k]]]]]; try lia;
      simpl in Hrej; discriminate Hrej.
Defined.
